(** * BCTW import pipeline: row validation and the staged bulk upsert

    A shallow embedding of the import module of the BCTW API
    (the file importing [csv-parser], [exceljs] and [./bulk_handlers]):
    [checkGenericErrors], [requireFields], [verifyAssignment],
    [checkAnimalDeviceErrorsAndWarns], [parseXlsx], [handleBulkMetadata]
    and [handleCollarCritterLink].

    JavaScript objects used as dictionaries are finite maps with string
    keys; a property that is [undefined] is a missing key, [null] is the
    cell [CNull].  Database round trips are answered by a [Store], a
    read-only oracle that is reachable for the whole pass; every round
    trip that matters for the ordering of the phases is recorded as an
    [Event] in a trace. *)

From stdpp Require Import gmap strings list fin_maps pretty.
From Stdlib Require Import ZArith.

(** ** JavaScript values *)

(** The cells of a row.  A number [CNum n] is an integer that a double
    holds exactly ([|n| < 2^53]), as the ids and counts of the module are;
    JavaScript prints such a number with all its digits. *)
Inductive Cell : Type :=
| CNull
| CStr (s : string)
| CNum (n : Z)
| CBool (b : bool)
| CDate (t : Z).

#[global] Instance Cell_eq_dec : EqDecision Cell.
Proof. solve_decision. Defined.

(** A value read from a property: [None] is [undefined]. *)
Abbreviation Value := (option Cell).
Abbreviation Row := (gmap string Cell).

(** Truthiness, as used by [&&], [if] and [filter]. *)
Definition truthy (v : Value) : bool :=
  match v with
  | None | Some CNull => false
  | Some (CStr s) => negb (String.eqb s EmptyString)
  | Some (CNum n) => negb (n =? 0)%Z
  | Some (CBool b) => b
  | Some (CDate _) => true
  end.

(** [a ?? b] *)
Definition nullish (v : Value) : bool :=
  match v with
  | None | Some CNull => true
  | _ => false
  end.

Definition coalesce (a b : Value) : Value := if nullish a then b else a.
Infix "??" := coalesce (at level 45, right associativity).

(** [a === b]; two [Date] objects are never the same object. *)
Definition strict_eq (a b : Value) : bool :=
  match a, b with
  | None, None => true
  | Some CNull, Some CNull => true
  | Some (CStr s), Some (CStr s') => String.eqb s s'
  | Some (CNum n), Some (CNum n') => (n =? n')%Z
  | Some (CBool b), Some (CBool b') => Bool.eqb b b'
  | _, _ => false
  end.

Inductive Exn : Type :=
| RangeError (msg : string)
| TypeError (msg : string)
| Error (msg : string).

Inductive Outcome (A : Type) : Type :=
| Returned (a : A)
| Thrown (e : Exn).
Arguments Returned {A} a.
Arguments Thrown {A} e.

(** ** Records of the module *)

Record CellErrorDescriptor := {
  desc : string;
  help : string;
  valid_values : option (list string);
}.

#[global] Instance CellErrorDescriptor_eq_dec : EqDecision CellErrorDescriptor.
Proof. solve_decision. Defined.

Record WarningInfo := {
  message : string;
  prompt : bool;
}.

#[global] Instance WarningInfo_eq_dec : EqDecision WarningInfo.
Proof. solve_decision. Defined.

Abbreviation ParsedXLSXCellError := (gmap string CellErrorDescriptor).

Record ErrorsAndWarnings := {
  ew_errors : ParsedXLSXCellError;
  ew_warnings : list WarningInfo;
}.

Record ParsedXLSXRowResult := {
  row : Row;
  errors : ParsedXLSXCellError;
  warnings : list WarningInfo;
  success : bool;
}.

Record ParsedXLSXSheetResult := {
  headers : list string;
  rows : list ParsedXLSXRowResult;
}.

(** One row of an assignment history, as the database returns it. *)
Record Link := {
  attachment_start : Value;
  attachment_end : Value;
}.

Inductive UpsertKind : Type := device | animal.

#[global] Instance UpsertKind_eq_dec : EqDecision UpsertKind.
Proof. solve_decision. Defined.

Record BulkError := {
  be_row : string;
  be_rownum : nat;
  be_error : string;
}.

#[global] Instance BulkError_eq_dec : EqDecision BulkError.
Proof. solve_decision. Defined.

(** [results] holds objects: the records an upsert returned, the phase
    summaries [{success: ...}] and the attachment messages, which the
    source stores under the key [sucess]. *)
Record IBulkResponse := {
  br_errors : list BulkError;
  br_results : list Row;
}.

Definition successRecord (msg : string) : Row := {[ "success" := CStr msg ]}.
Definition sucessRecord (msg : string) : Row := {[ "sucess" := CStr msg ]}.

Record ICrittersWithDevices := {
  rowIndex : nat;
  cwd_row : Row;
}.

Record HistoricalAttachmentProps := {
  collar_id : Value;
  critter_id : Value;
  body_attachment_start : Value;
  data_life_start : Value;
  body_attachment_end : Value;
  data_life_end : Value;
}.

(** ** The store and the built-ins the module relies on *)

Record Store := {
  (** [new Date()] / [dayjs()] at the time of the call *)
  now : Z;
  (** [Date.parse]: the time value of a date string, if it has one *)
  Date_parse : string → option Z;
  (** [d.toISOString().split('T')[0]] of a valid time value *)
  toISODate : Z → string;
  (** [d.toString()] of a date *)
  Date_toString : Z → string;
  (** [column_name], [data_type] of the tables animal and collar *)
  information_schema_columns : list (string * string);
  (** [SELECT code_header_name FROM code_header] *)
  code_header : list string;
  (** descriptions returned by [get_code] for a header *)
  get_code : string → list string;
  get_device_assignment_history : Value → list Link;
  get_animal_collar_assignment_history : string → Value → list Link;
  (** the [is_new] flag of [is_new_animal] *)
  is_new_animal : Row → bool;
  (** helpers imported from [./import_helpers] *)
  mapXlsxHeader : string → string;
  rowToCsv : Row → string;
  (** [upsertBulk] of [./bulk_handlers] *)
  upsertBulk : string → list Row → UpsertKind → IBulkResponse;
}.

(** Round trips that the claims distinguish. *)
Inductive Event : Type :=
| EvDeviceHistory (device_id : Value)
| EvAnimalHistory (user : string) (critter : Value)
| EvIsNewAnimal (r : Row)
| EvUpsertBulk (user : string) (rs : list Row) (kind : UpsertKind)
| EvLinkCollar (user : string) (body : HistoricalAttachmentProps).

(** Effectful code: a trace of round trips and a result or an exception. *)
Definition Eff (A : Type) : Type := (list Event * Outcome A)%type.

Definition eret {A} (a : A) : Eff A := ([], Returned a).
Definition ethrow {A} (e : Exn) : Eff A := ([], Thrown e).
Definition emit (ev : Event) : Eff unit := ([ev], Returned tt).
Definition ebind {A B} (m : Eff A) (f : A → Eff B) : Eff B :=
  match m with
  | (t, Returned a) => let '(t', r) := f a in (t ++ t', r)
  | (t, Thrown e) => (t, Thrown e)
  end.
Definition elift {A} (o : Outcome A) : Eff A := ([], o).

Notation "'let!' x ':=' m 'in' k" := (ebind m (fun x => k))
  (at level 10, x name, m at level 100, k at level 200).

Fixpoint emapM {A B} (f : A → Eff B) (l : list A) : Eff (list B) :=
  match l with
  | [] => eret []
  | a :: l' => let! b := f a in let! bs := emapM f l' in eret (b :: bs)
  end.

(** [String(v)] as a template literal prints it; for a number, the
    decimal digits of an integer below [2^53] in absolute value (from
    [1e21] on JavaScript switches to the exponent form, which no id of the
    module reaches). *)
Definition toString (st : Store) (v : Value) : string :=
  match v with
  | None => "undefined"
  | Some CNull => "null"
  | Some (CStr s) => s
  | Some (CNum n) => pretty n
  | Some (CBool b) => if b then "true" else "false"
  | Some (CDate t) => Date_toString st t
  end.

(** ** Constants *)

Definition deviceMetadataSheetName : string := "Device Metadata".
Definition telemetrySheetName : string := "Telemetry".
Definition extraCodeFields : list string := ["species"].

Definition metadataRequiredHeaders : list string :=
  [ "Wildlife Health ID"; "Animal ID"; "Species"; "Population Unit";
    "Region"; "Sex"; "Animal Status"; "Capture Date"; "Capture Latitude";
    "Capture Longitude"; "Capture UTM Easting"; "Capture UTM Northing";
    "Capture UTM Zone"; "Capture Comment"; "Ear Tag Right ID";
    "Ear Tag Right Colour"; "Ear Tag Left ID"; "Ear Tag Left Colour";
    "Compulsory Inspection ID"; "COORS ID"; "Leg Band ID"; "Microchip ID";
    "Nickname"; "Pit Tag ID"; "RAPP Ear Tag ID"; "Recapture ID";
    "Wing Band ID"; "HWCN ID"; "Telemetry Device ID";
    "Device Deployment Status"; "Device Make"; "Device Model";
    "Device Type"; "Frequency"; "Frequency Unit"; "Fix Interval";
    "Fix Interval Rate"; "Satellite Network";
    "Vaginal Implant Transmitter ID"; "Camera Device ID";
    "Dropoff Device ID"; "Dropoff Frequency"; "Dropoff Frequency Unit";
    "Malfunction Date"; "Malfunction Comment"; "Device Malfunction Type";
    "Device Retrieval Date"; "Device Retrieval Comment";
    "Animal Mortality Date"; "Suspected Mortality Cause";
    "Mortality Comment" ].

Definition telemetryRequiredHeaders : list string :=
  [ "Device ID"; "Latitude"; "Longitude"; "Acquisition Date"; "Elevation";
    "Temperature"; "Satellite"; "Dilution"; "Main Voltage";
    "Backup Voltage" ].

Record SheetRequirements := {
  sheetName : string;
  requiredHeaders : list string;
}.

Definition sheetRequirements : list SheetRequirements :=
  [ {| sheetName := deviceMetadataSheetName;
       requiredHeaders := metadataRequiredHeaders |};
    {| sheetName := telemetrySheetName;
       requiredHeaders := telemetryRequiredHeaders |} ].

(** ** Row validation *)

Section Validation.
Context (st : Store).

(** [obtainColumnTypes]: the reduce keeps the last data type of a column
    name, the switch then renames it. *)
Definition columnKind (data_type : string) : string :=
  if bool_decide (data_type ∈ ["integer"; "double precision"]) then "number"
  else if bool_decide (data_type ∈ ["timestamp without time zone";
                                    "timestamp with time zone"]) then "date"
  else if String.eqb data_type "boolean" then "boolean"
  else "string".

Definition obtainColumnTypes : gmap string string :=
  columnKind <$>
    foldl (λ (o : gmap string string) keyval, <[keyval.1 := keyval.2]> o)
          ∅ (information_schema_columns st).

(** [code_descriptions.includes(v)]: only a string equals a description. *)
Definition includes (l : list string) (v : Value) : bool :=
  match v with
  | Some (CStr s) => bool_decide (s ∈ l)
  | _ => false
  end.

Definition isDate (c : Cell) : bool :=
  match c with CDate _ => true | _ => false end.
Definition isNumber (c : Cell) : bool :=
  match c with CNum _ => true | _ => false end.

(** The body of the loop of [checkGenericErrors] for one key. *)
Definition cellError (codeFields : list string)
    (columnTypes : gmap string string) (key : string) (v : Cell)
    : option CellErrorDescriptor :=
  if bool_decide (key ∈ codeFields) then
    let code_descriptions := get_code st key in
    if negb (includes code_descriptions (Some v)) then
      Some {| desc := "This value is not a valid code for this field.";
              help := "This field must contain a value from the list of acceptable values.";
              valid_values := Some code_descriptions |}
    else None
  else if bool_decide (columnTypes !! key = Some "date") then
    if negb (isDate v) then
      Some {| desc := "This field must be a valid date format.";
              help := "You have incorrectly formatted this date field. One way you can ensure correct formatting for a cell of this type is to change the Number Format dropdown in Excel.";
              valid_values := None |}
    else None
  else if bool_decide (columnTypes !! key = Some "number") then
    if negb (isNumber v) then
      Some {| desc := "This field must be a numeric value.";
              help := "This field is set to only accept numbers, including integers and floating points. Ensure you have not included any special characters.";
              valid_values := None |}
    else None
  else if bool_decide (columnTypes !! key = Some "boolean") then
    if negb (bool_decide (v = CStr "TRUE")) && negb (bool_decide (v = CStr "FALSE")) then
      Some {| desc := "Set this field to either TRUE or FALSE.";
              help := EmptyString;
              valid_values := None |}
    else None
  else None.

Definition checkGenericErrors (r : Row) (codeFields : list string)
    (columnTypes : gmap string string) : ParsedXLSXCellError :=
  foldl (λ (errors : ParsedXLSXCellError) kv,
           match cellError codeFields columnTypes kv.1 kv.2 with
           | Some e => <[kv.1 := e]> errors
           | None => errors
           end)
        ∅ (map_to_list r).

Definition verifyIdentifiers (r : Row) : bool := true.

Definition requireFields (r : Row) : bool :=
  if truthy (r !! "species") && truthy (r !! "device_id") then true else false.

(** The time value of [new Date(c)]; [None] is an Invalid Date. *)
Definition newDate (c : Cell) : option Z :=
  match c with
  | CDate t => Some t
  | CNum n => if (Z.abs n <=? 8640000000000000)%Z then Some n else None
  | CStr s => Date_parse st s
  | CBool b => Some (if b then 1 else 0)%Z
  | CNull => Some 0%Z
  end.

(** A bound of an interval read as an instant, if it is a date. *)
Definition instant (v : Value) : option Z := v ≫= newDate.

(** [start < (end or +inf)]; a bound that is no date compares false, as
    NaN does. *)
Definition before_end (start : Value) (end_ : Value) : bool :=
  match instant start with
  | None => false
  | Some a =>
      if nullish end_ then true
      else match instant end_ with
           | Some b => (a <? b)%Z
           | None => false
           end
  end.

(** Modelled from the spec: [dateRangesOverlap] of [./import_helpers],
    which is not part of the sources at hand.  The spec's rule: intervals
    A and B overlap iff A.start < (B.end or +inf) and B.start < (A.end or
    +inf), an absent end standing for an open interval. *)
Definition dateRangesOverlap (a_start a_end b_start b_end : Value) : bool :=
  before_end a_start b_end && before_end b_start a_end.

Definition deviceAssignedError : CellErrorDescriptor :=
  {| desc := "This device is already assigned to an animal. Unlink this device and try again.";
     help := "This device is already assigned to an animal. Unlink this device and try again.";
     valid_values := None |}.

Definition previousDeploymentsWarning (r : Row) : WarningInfo :=
  {| message := "There are previous deployments for device ID "
                  +:+ toString st (r !! "device_id");
     prompt := false |}.

Definition multipleDevicesWarning : WarningInfo :=
  {| message := "You will be attaching multiple devices to this animal over the same time span.";
     prompt := true |}.

Definition row_start (r : Row) : Value :=
  r !! "capture_date" ?? Some (CDate (now st)).
Definition row_end (r : Row) : Value :=
  r !! "retrieval_date" ?? r !! "mortality_date" ?? Some CNull.

Definition overlapsRow (r : Row) (link : Link) : bool :=
  dateRangesOverlap (attachment_start link) (attachment_end link)
                    (row_start r) (row_end r).

Definition verifyAssignment (r : Row) (user : string) : Eff ErrorsAndWarnings :=
  let linkData := {| ew_errors := ∅; ew_warnings := [] |} in
  let! _ := emit (EvDeviceHistory (r !! "device_id")) in
  let deviceLinks := get_device_assignment_history st (r !! "device_id") in
  let linkData :=
    if existsb (overlapsRow r) deviceLinks then
      {| ew_errors := <["device_id" := deviceAssignedError]> (ew_errors linkData);
         ew_warnings := ew_warnings linkData |}
    else if negb (Nat.eqb (length deviceLinks) 0) then
      {| ew_errors := ew_errors linkData;
         ew_warnings := ew_warnings linkData ++ [previousDeploymentsWarning r] |}
    else linkData in
  if truthy (r !! "critter_id") then
    let! _ := emit (EvAnimalHistory user (r !! "critter_id")) in
    let animalLinks :=
      get_animal_collar_assignment_history st user (r !! "critter_id") in
    if existsb (overlapsRow r) animalLinks then
      eret {| ew_errors := ew_errors linkData;
              ew_warnings := ew_warnings linkData ++ [multipleDevicesWarning] |}
    else eret linkData
  else eret linkData.

Definition verifyUniqueAnimals (rowres : ParsedXLSXRowResult) : Eff bool :=
  let! _ := emit (EvIsNewAnimal (row rowres)) in
  eret (is_new_animal st (row rowres)).

Definition missingDataError : CellErrorDescriptor :=
  {| desc := "You have not provided sufficient data.";
     help := "You have not provided sufficient data.";
     valid_values := None |}.

Definition newAnimalWarning : WarningInfo :=
  {| message := "This row will create a new animal."; prompt := true |}.

Definition checkAnimalDeviceErrorsAndWarns (rowres : ParsedXLSXRowResult)
    (user : string) : Eff ErrorsAndWarnings :=
  if negb (requireFields (row rowres)) then
    eret {| ew_errors := {[ "missing_data" := missingDataError ]};
            ew_warnings := [] |}
  else
    let! ret := verifyAssignment (row rowres) user in
    let! unqanim := verifyUniqueAnimals rowres in
    if unqanim then
      eret {| ew_errors := ew_errors ret;
              ew_warnings := ew_warnings ret ++ [newAnimalWarning] |}
    else eret ret.

(** *** The workbook *)

(** A worksheet as [exceljs] presents it: the values of row 1 (holes are
    [None]) and the values of the rows 2 .. [lastRow], each without the
    unused slot 0 of [row.values]. *)
Record Sheet := {
  sheet_name : string;
  header_row : list (option string);
  data_rows : list (list Value);
}.

Definition Workbook : Type := list Sheet.

Definition getWorksheet (wb : Workbook) (name : string) : option Sheet :=
  List.find (λ s, String.eqb (sheet_name s) name) wb.

Definition lastRow (sheet : Sheet) : option nat :=
  match header_row sheet, data_rows sheet with
  | [], [] => None
  | _, _ => Some (S (length (data_rows sheet)))
  end.

(** [requiredHeaders.forEach((value, idx) => headers[idx] != value ...)] *)
Definition headersMatch (required headers : list string) : bool :=
  forallb (λ iv : nat * string, bool_decide (headers !! iv.1 = Some iv.2))
          (imap pair required).

(** [rowWithHeader[key] = row.values[idx + 1]], or [undefined] past the
    end of the row. *)
Definition rowWithHeader (headers : list string) (values : list Value)
    : gmap string Value :=
  foldl (λ (o : gmap string Value) (ik : nat * string),
           <[ik.2 := mjoin (values !! ik.1)]> o)
        ∅ (imap pair headers).

(** Modelled from the spec: [removeEmptyProps] of [./import_helpers],
    which is not part of the sources at hand.  The spec: absent/empty
    fields are dropped before checking. *)
Definition removeEmptyProps (o : gmap string Value) : Row :=
  omap (λ v : Value,
          match v with
          | None | Some CNull => None
          | Some c => if bool_decide (c = CStr EmptyString) then None else Some c
          end) o.

(** The loop that rewrites every date column of the row as
    [new Date(v).toISOString().split('T')[0]]; [toISOString] throws a
    RangeError on an Invalid Date.  The keys of an object are distinct, so
    the value read at a key is the one the row had on entry. *)
Definition convertDates (columnTypes : gmap string string) (r : Row)
    : Outcome Row :=
  foldl (λ (acc : Outcome Row) (kv : string * Cell),
           match acc with
           | Thrown e => Thrown e
           | Returned r' =>
               if bool_decide (columnTypes !! kv.1 = Some "date") then
                 match newDate kv.2 with
                 | Some t => Returned (<[kv.1 := CStr (toISODate st t)]> r')
                 | None => Thrown (RangeError "Invalid time value")
                 end
               else Returned r'
           end)
        (Returned r) (map_to_list r).

(** The body of the loop over the rows 2 .. [lastRow] of a sheet. *)
Definition parseRow (user : string) (name : string)
    (code_header_names : list string) (headers : list string)
    (values : list Value) : Eff ParsedXLSXRowResult :=
  let columnTypes := obtainColumnTypes in
  let crow := removeEmptyProps (rowWithHeader headers values) in
  let errors0 := checkGenericErrors crow code_header_names columnTypes in
  let! crow' := elift (convertDates columnTypes crow) in
  let rowObj :=
    {| row := crow'; warnings := []; errors := errors0; success := false |} in
  let! rowObj :=
    if String.eqb name deviceMetadataSheetName then
      let! errswrns := checkAnimalDeviceErrorsAndWarns rowObj user in
      eret {| row := row rowObj;
              errors := ew_errors errswrns ∪ errors rowObj;
              warnings := warnings rowObj ++ ew_warnings errswrns;
              success := success rowObj |}
    else eret rowObj in
  eret {| row := row rowObj;
          errors := errors rowObj;
          warnings := warnings rowObj;
          success := Nat.eqb (size (errors rowObj)) 0 |}.

Definition parseSheet (user : string) (wb : Workbook)
    (code_header_names : list string) (req : SheetRequirements)
    : Eff ParsedXLSXSheetResult :=
  match getWorksheet wb (sheetName req) with
  | None => ethrow (TypeError "Cannot read properties of undefined (reading 'getRow')")
  | Some sheet =>
      let headers := omap id (header_row sheet) in
      if negb (headersMatch (requiredHeaders req) headers) then
        ethrow (Error "Headers from this file do not match template headers.")
      else
        match lastRow sheet with
        | None => ethrow (Error "There was somehow no last row within this worksheet, aborting.")
        | Some _ =>
            let headers := mapXlsxHeader st <$> headers in
            let! verifiedRowObj :=
              emapM (parseRow user (sheet_name sheet) code_header_names headers)
                    (data_rows sheet) in
            eret {| headers := headers; rows := verifiedRowObj |}
        end
  end.

(** The loop over [sheetRequirements] inside the [try]: an exception
    leaves [sheetResults] as it was and ends the loop. *)
Fixpoint parseSheets (user : string) (wb : Workbook)
    (code_header_names : list string) (reqs : list SheetRequirements)
    (sheetResults : list ParsedXLSXSheetResult)
    : list Event * list ParsedXLSXSheetResult :=
  match reqs with
  | [] => ([], sheetResults)
  | req :: reqs' =>
      match parseSheet user wb code_header_names req with
      | (t, Returned sr) =>
          let '(t', res) :=
            parseSheets user wb code_header_names reqs' (sheetResults ++ [sr]) in
          (t ++ t', res)
      | (t, Thrown _) => (t, sheetResults)
      end
  end.

(** [parseXlsx]: what the callback receives. *)
Definition parseXlsx (user : string) (wb : Workbook)
    : list Event * list ParsedXLSXSheetResult :=
  let code_header_names := code_header st ++ extraCodeFields in
  parseSheets user wb code_header_names sheetRequirements [].

End Validation.

(** ** The staged bulk upsert *)

(** How a promise settled.  The value of a fulfilled promise is never
    inspected by the module. *)
Inductive Settled : Type :=
| Fulfilled
| Rejected (reason : string).

#[global] Instance Settled_eq_dec : EqDecision Settled.
Proof. solve_decision. Defined.

(** What one attachment task does before its first [await]: it settles at
    once, after pushing [pushed] on the errors of the bulk response, or it
    sends the link query and waits. *)
Inductive TaskStart : Type :=
| Immediate (s : Settled) (pushed : list BulkError)
| Pending (body : HistoricalAttachmentProps).

Section Orchestrator.
Context (st : Store).

(** The message of the [TypeError] that [v.toString()] throws when [v] is
    [null] or [undefined]. *)
Definition cannotReadToString (v : Value) : string :=
  "Cannot read properties of "
    +:+ match v with Some CNull => "null" | _ => "undefined" end
    +:+ " (reading 'toString')".

(** [String(e)] for an exception, as the template literal of the error
    entry prints the reason of a rejected task. *)
Definition exnToString (e : Exn) : string :=
  match e with
  | RangeError msg => "RangeError: " +:+ msg
  | TypeError msg => "TypeError: " +:+ msg
  | Error msg => "Error: " +:+ msg
  end.

(** [dr.device_id.toString() === row.device_id.toString()], both ids
    being present. *)
Definition sameDevice (r dr : Row) : bool :=
  String.eqb (toString st (dr !! "device_id")) (toString st (r !! "device_id")).

(** [collarResults.find((dr) => dr.device_id.toString() ===
    row.device_id.toString())]; the left operand is evaluated first, and
    [toString] of an id that is [null] or [undefined] throws. *)
Fixpoint findCollar (collarResults : list Row) (r : Row)
    : Outcome (option Row) :=
  match collarResults with
  | [] => Returned None
  | dr :: rest =>
      if nullish (dr !! "device_id") then
        Thrown (TypeError (cannotReadToString (dr !! "device_id")))
      else if nullish (r !! "device_id") then
        Thrown (TypeError (cannotReadToString (r !! "device_id")))
      else if sameDevice r dr then Returned (Some dr)
      else findCollar rest r
  end.

Definition findCritter (critterResults : list Row) (r : Row) : option Row :=
  List.find (λ cr, strict_eq (cr !! "animal_id") (r !! "animal_id"))
            critterResults.

Definition linkBody (savedCritter matchingCollar r : Row)
    : HistoricalAttachmentProps :=
  let attachment_start := savedCritter !! "capture_date" ?? Some (CDate (now st)) in
  let attachment_end :=
    savedCritter !! "mortality_date" ?? r !! "retrieval_date" ?? Some CNull in
  {| collar_id := matchingCollar !! "collar_id";
     critter_id := savedCritter !! "critter_id";
     body_attachment_start := attachment_start;
     data_life_start := attachment_start;
     body_attachment_end := attachment_end;
     data_life_end := attachment_start |}.

Definition noMatchingCollar (c : ICrittersWithDevices) : BulkError :=
  {| be_row := rowToCsv st (cwd_row c);
     be_rownum := rowIndex c;
     be_error := "unable to find matching collar with device ID "
                   +:+ toString st (cwd_row c !! "device_id") |}.

(** The async callback mapped over [crittersWithCollars], up to its first
    [await]. *)
Definition startTask (critterResults collarResults : list Row)
    (c : ICrittersWithDevices) : TaskStart :=
  match findCritter critterResults (cwd_row c) with
  | None => Immediate Fulfilled []
  | Some savedCritter =>
      match findCollar collarResults (cwd_row c) with
      | Thrown e => Immediate (Rejected (exnToString e)) []
      | Returned None => Immediate Fulfilled [noMatchingCollar c]
      | Returned (Some matchingCollar) =>
          Pending (linkBody savedCritter matchingCollar (cwd_row c))
      end
  end.

Definition startPushed (t : TaskStart) : list BulkError :=
  match t with Immediate _ pushed => pushed | Pending _ => [] end.

Definition startEvents (username : string) (t : TaskStart) : list Event :=
  match t with
  | Immediate _ _ => []
  | Pending body => [EvLinkCollar username body]
  end.

(** The link queries settle in the order of the completion log, a list of
    pairs of the index of a task and the way its query settled; a promise
    settles once. *)
Definition settleOf (log : list (nat * Settled)) (i : nat) : option Settled :=
  snd <$> List.find (λ p : nat * Settled, Nat.eqb p.1 i) log.

Definition taskSettled (log : list (nat * Settled)) (i : nat) (t : TaskStart)
    : option Settled :=
  match t with
  | Immediate s _ => Some s
  | Pending _ => settleOf log i
  end.

(** [Promise.allSettled]: resolves once every task has settled, with the
    settlements in the order of the tasks. *)
Fixpoint allSettledFrom (log : list (nat * Settled)) (i : nat)
    (tasks : list TaskStart) : option (list Settled) :=
  match tasks with
  | [] => Some []
  | t :: rest =>
      match taskSettled log i t, allSettledFrom log (S i) rest with
      | Some s, Some ss => Some (s :: ss)
      | _, _ => None
      end
  end.

Definition allSettled (log : list (nat * Settled)) (tasks : list TaskStart)
    : option (list Settled) :=
  allSettledFrom log 0 tasks.

(** [animal?.animal_id ?? animal.wlh_id] *)
Definition animalIdentifier (c : ICrittersWithDevices) : Value :=
  cwd_row c !! "animal_id" ?? cwd_row c !! "wlh_id".

Definition attachmentError (c : ICrittersWithDevices) (reason : string)
    : BulkError :=
  {| be_rownum := rowIndex c;
     be_error := "Animal ID " +:+ toString st (animalIdentifier c)
                   +:+ " " +:+ reason;
     be_row := rowToCsv st (cwd_row c) |}.

Definition attachmentSuccess (c : ICrittersWithDevices) : Row :=
  sucessRecord (toString st (animalIdentifier c) +:+ " successfully attached to "
            +:+ toString st (cwd_row c !! "device_id")).

(** The body of [values.forEach] in the [then] callback. *)
Definition report (bulkResp : IBulkResponse) (c : ICrittersWithDevices)
    (val : Settled) : IBulkResponse :=
  match val with
  | Rejected reason =>
      {| br_errors := br_errors bulkResp ++ [attachmentError c reason];
         br_results := br_results bulkResp |}
  | Fulfilled =>
      {| br_errors := br_errors bulkResp;
         br_results := br_results bulkResp ++ [attachmentSuccess c] |}
  end.

(** [handleCollarCritterLink]: the trace of the link queries sent and the
    bulk response as the function leaves it; [None] when some query never
    settles. *)
Definition handleCollarCritterLink (username : string)
    (critterResults collarResults : list Row)
    (crittersWithCollars : list ICrittersWithDevices)
    (bulkResp : IBulkResponse) (log : list (nat * Settled))
    : list Event * option IBulkResponse :=
  let tasks := startTask critterResults collarResults <$> crittersWithCollars in
  let bulkResp :=
    {| br_errors := br_errors bulkResp ++ concat (startPushed <$> tasks);
       br_results := br_results bulkResp |} in
  (concat (startEvents username <$> tasks),
   values ← allSettled log tasks;
   Some (foldl (λ b (cv : ICrittersWithDevices * Settled), report b cv.1 cv.2)
               bulkResp (zip crittersWithCollars values))).

Definition animalsWithDevices (rs : list Row) : list ICrittersWithDevices :=
  filter (λ r, truthy (cwd_row r !! "device_id") = true)
         (imap (λ idx r, {| rowIndex := idx; cwd_row := r |}) rs).

Definition handleBulkMetadata (username : string) (rs : list Row)
    (log : list (nat * Settled)) : list Event * option IBulkResponse :=
  let animalsWithDevices := animalsWithDevices rs in
  let ret := {| br_errors := []; br_results := [] |} in
  let collarResults := upsertBulk st username rs device in
  if negb (Nat.eqb (length (br_errors collarResults)) 0) then
    ([EvUpsertBulk username rs device], Some collarResults)
  else
    let ret :=
      {| br_errors := br_errors ret;
         br_results := br_results ret ++
           [ successRecord (pretty (length (br_results collarResults))
                              +:+ " devices were successfully added") ] |} in
    let animalResults := upsertBulk st username rs animal in
    if negb (Nat.eqb (length (br_errors animalResults)) 0) then
      ([EvUpsertBulk username rs device; EvUpsertBulk username rs animal],
       Some animalResults)
    else
      let ret :=
        {| br_errors := br_errors ret;
           br_results := br_results ret ++
             [ successRecord (pretty (length (br_results animalResults))
                                +:+ " animals were successfully added") ] |} in
      if negb (Nat.eqb (length animalsWithDevices) 0)
         && Nat.eqb (length (br_errors collarResults)) 0
         && Nat.eqb (length (br_errors animalResults)) 0
      then
        let '(t, r) :=
          handleCollarCritterLink username (br_results animalResults)
            (br_results collarResults) animalsWithDevices ret log in
        ([EvUpsertBulk username rs device; EvUpsertBulk username rs animal] ++ t, r)
      else
        ([EvUpsertBulk username rs device; EvUpsertBulk username rs animal],
         Some ret).

End Orchestrator.

(** Modelled from the spec: [query] of [../database/query], which is not
    among the sources.  The spec has the link call return success or
    failure, and so do the callers at hand: they read [isError] from the
    value [query] resolves with (the type [QResult] of [types/query]),
    and the tests mock a failed query as a resolved value whose [isError]
    is true.  A failed statement is therefore no rejection. *)
Record QResult := {
  isError : bool;
  error : option string;
}.

(** The promise of a task that has sent its link query and returns what
    [await query(sql, '', true)] gives: it is fulfilled with the [QResult]
    whatever its [isError], and [handleCollarCritterLink] reads only the
    status. *)
Definition awaitQuery (result : QResult) : Settled := Fulfilled.

(** The completion log of link queries that resolve, in that order. *)
Definition resolvedLog (answers : list (nat * QResult)) : list (nat * Settled) :=
  (λ a : nat * QResult, (a.1, awaitQuery a.2)) <$> answers.

(** ** A store and a workbook to run the module on *)

Definition ms_2020_01_01 : Z := 1577836800000.
Definition ms_2020_03_01 : Z := 1583020800000.
Definition ms_2020_06_01 : Z := 1590969600000.

Definition demoDates : list (string * Z) :=
  [ ("2020-01-01", ms_2020_01_01); ("2020-03-01", ms_2020_03_01);
    ("2020-06-01", ms_2020_06_01) ].

Definition demoHeaderNames : list (string * string) :=
  [ ("Wildlife Health ID", "wlh_id"); ("Animal ID", "animal_id");
    ("Species", "species"); ("Sex", "sex"); ("Capture Date", "capture_date");
    ("Telemetry Device ID", "device_id"); ("Device Make", "device_make");
    ("Frequency", "frequency");
    ("Device Retrieval Date", "retrieval_date");
    ("Animal Mortality Date", "mortality_date") ].

Definition assoc {A} (l : list (string * A)) (k : string) : option A :=
  snd <$> List.find (λ p : string * A, String.eqb p.1 k) l.

Definition demoCsv (r : Row) : string :=
  String.concat ","
    ((λ kv : string * Cell,
        match kv.2 with
        | CStr s => s
        | CNum n => pretty n
        | _ => EmptyString
        end) <$> map_to_list r).

(** The records a successful upsert hands back: the rows with the key the
    database gave them. *)
Definition demoUpserted (kind : UpsertKind) (r : Row) : Row :=
  match kind with
  | device =>
      <["collar_id" :=
          CStr ("collar-" +:+ demoCsv (filter (λ kv, kv.1 = "device_id") r))]> r
  | animal =>
      <["critter_id" :=
          CStr ("critter-" +:+ demoCsv (filter (λ kv, kv.1 = "animal_id") r))]> r
  end.

(** Device 101 was deployed from 2020-01-01 to 2020-06-01 and device 102
    has one closed deployment before that; the species domain does not
    list Caribou. *)
Definition demoStore : Store :=
  {| now := ms_2020_06_01;
     Date_parse := assoc demoDates;
     toISODate := λ t,
       default "1970-01-01"
         (fst <$> List.find (λ p : string * Z, (p.2 =? t)%Z) demoDates);
     Date_toString := λ t, pretty t;
     information_schema_columns :=
       [ ("capture_date", "timestamp with time zone");
         ("retrieval_date", "timestamp with time zone");
         ("mortality_date", "timestamp with time zone");
         ("frequency", "double precision");
         ("device_id", "integer");
         ("animal_id", "character varying") ];
     code_header := ["sex"; "device_make"];
     get_code := λ key,
       if String.eqb key "species" then ["Moose"; "Grey Wolf"; "Grizzly Bear"]
       else if String.eqb key "sex" then ["Male"; "Female"; "Unknown"]
       else if String.eqb key "device_make" then ["Vectronic"; "Lotek"; "ATS"]
       else [];
     get_device_assignment_history := λ d,
       if strict_eq d (Some (CNum 101)) then
         [ {| attachment_start := Some (CDate ms_2020_01_01);
              attachment_end := Some (CDate ms_2020_06_01) |} ]
       else if strict_eq d (Some (CNum 102)) then
         [ {| attachment_start := Some (CDate 0);
              attachment_end := Some (CDate ms_2020_01_01) |} ]
       else [];
     get_animal_collar_assignment_history := λ _ c,
       if strict_eq c (Some (CStr "critter-7")) then
         [ {| attachment_start := Some (CDate ms_2020_01_01);
              attachment_end := Some CNull |} ]
       else [];
     is_new_animal := λ r, negb (truthy (r !! "critter_id"));
     mapXlsxHeader := λ h, default h (assoc demoHeaderNames h);
     rowToCsv := demoCsv;
     upsertBulk := λ _ rs kind,
       {| br_errors := []; br_results := demoUpserted kind <$> rs |} |}.

(** The same store with another [upsertBulk]. *)
Definition withUpsertBulk (st : Store)
    (f : string → list Row → UpsertKind → IBulkResponse) : Store :=
  {| now := now st;
     Date_parse := Date_parse st;
     toISODate := toISODate st;
     Date_toString := Date_toString st;
     information_schema_columns := information_schema_columns st;
     code_header := code_header st;
     get_code := get_code st;
     get_device_assignment_history := get_device_assignment_history st;
     get_animal_collar_assignment_history :=
       get_animal_collar_assignment_history st;
     is_new_animal := is_new_animal st;
     mapXlsxHeader := mapXlsxHeader st;
     rowToCsv := rowToCsv st;
     upsertBulk := f |}.

(** A row of the Device Metadata sheet: the cells at the given columns,
    the other 51 columns empty. *)
Definition metadataCells (cells : list (nat * Cell)) : list Value :=
  foldr (λ (ic : nat * Cell) (vs : list Value), <[ic.1 := Some ic.2]> vs)
        (replicate 51 None) cells.

Definition colSpecies : nat := 2.
Definition colAnimalId : nat := 1.
Definition colCaptureDate : nat := 7.
Definition colDeviceId : nat := 28.
Definition colFrequency : nat := 33.

Definition metadataSheet (body : list (list Value)) : Sheet :=
  {| sheet_name := deviceMetadataSheetName;
     header_row := Some <$> metadataRequiredHeaders;
     data_rows := body |}.

Definition telemetrySheet : Sheet :=
  {| sheet_name := telemetrySheetName;
     header_row := Some <$> telemetryRequiredHeaders;
     data_rows := [] |}.


(** Scenario B: device 101 has the history interval [2020-01-01,
    2020-06-01) and the row starts on 2020-03-01 with no end. *)
Definition rowScenarioB : Row :=
  {[ "species" := CStr "Moose"; "device_id" := CNum 101;
     "capture_date" := CStr "2020-03-01" ]}.

(** Device 102 was only deployed before 2020. *)
Definition rowEarlierDeployment : Row :=
  {[ "species" := CStr "Moose"; "device_id" := CNum 102;
     "capture_date" := CStr "2020-03-01" ]}.

(** Animal critter-7 has carried a device since 2020-01-01; device 103
    has no history. *)
Definition rowSecondDevice : Row :=
  {[ "species" := CStr "Moose"; "device_id" := CNum 103;
     "critter_id" := CStr "critter-7";
     "capture_date" := CStr "2020-03-01" ]}.

Definition demoWorkbook : Workbook :=
  [ metadataSheet
      [ metadataCells [ (colSpecies, CStr "Moose"); (colDeviceId, CNum 101);
                        (colCaptureDate, CDate ms_2020_03_01) ];
        metadataCells [ (colAnimalId, CStr "A7") ];
        metadataCells [ (colSpecies, CStr "Moose"); (colDeviceId, CNum 103) ] ];
    telemetrySheet ].

Definition noSheet : ParsedXLSXSheetResult := {| headers := []; rows := [] |}.
Definition noRow : ParsedXLSXRowResult :=
  {| row := ∅; errors := ∅; warnings := []; success := false |}.

(** The rows of the first sheet result of a parse. *)
Definition firstSheetRows (out : list ParsedXLSXSheetResult)
    : list ParsedXLSXRowResult :=
  rows (default noSheet (out !! 0)).

(** Scenario D: the device phase fails on the row of index 2. *)
Definition deviceFailsStore : Store :=
  withUpsertBulk demoStore (λ _ rs kind,
    match kind with
    | device =>
        {| br_errors :=
             [ {| be_row := default EmptyString (demoCsv <$> rs !! 2);
                  be_rownum := 2;
                  be_error := "invalid device make" |} ];
           br_results := [] |}
    | animal => {| br_errors := []; br_results := demoUpserted animal <$> rs |}
    end).

(** The animal phase fails on the row of index 0. *)
Definition animalFailsStore : Store :=
  withUpsertBulk demoStore (λ _ rs kind,
    match kind with
    | device => {| br_errors := []; br_results := demoUpserted device <$> rs |}
    | animal =>
        {| br_errors :=
             [ {| be_row := default EmptyString (demoCsv <$> rs !! 0);
                  be_rownum := 0;
                  be_error := "invalid species" |} ];
           br_results := [] |}
    end).

Definition batchRow (animal_id : string) (device_id : Z) : Row :=
  {[ "animal_id" := CStr animal_id; "species" := CStr "Moose";
     "device_id" := CNum device_id ]}.

Definition threeRows : list Row :=
  [ batchRow "A1" 101; batchRow "A2" 102; batchRow "A3" 103 ].

Definition rowA : Row := batchRow "A1" 101.
Definition rowB : Row := batchRow "A2" 102.

(** Two animals that share the animal id A1 and differ in their wildlife
    health id, each with its own device. *)
Definition twin1 : Row :=
  {[ "animal_id" := CStr "A1"; "wlh_id" := CStr "17-1001";
     "species" := CStr "Moose"; "device_id" := CNum 101 ]}.

Definition twinAnimal1 : Row := <["critter_id" := CStr "c1"]> twin1.
Definition twinCollar1 : Row :=
  {[ "device_id" := CNum 101; "collar_id" := CStr "k1" ]}.
Definition twinCollar2 : Row :=
  {[ "device_id" := CNum 102; "collar_id" := CStr "k2" ]}.


(** Two attachment tasks that send no link query: no upserted animal has
    the animal id A9, and the animal A1 is found but no upserted collar has
    the device id 101. *)
Definition orphanTasks : list ICrittersWithDevices :=
  [ {| rowIndex := 0; cwd_row := batchRow "A9" 102 |};
    {| rowIndex := 1; cwd_row := twin1 |} ].

Definition emptyResponse : IBulkResponse :=
  {| br_errors := []; br_results := [] |}.

(** The records the demo store hands back for the batch of [rowA] and
    [rowB]. *)
Definition upsertedAnimals : list Row :=
  br_results (upsertBulk demoStore "jdoe" [rowA; rowB] animal).
Definition upsertedCollars : list Row :=
  br_results (upsertBulk demoStore "jdoe" [rowA; rowB] device).

(** A workbook whose second data row carries text that is no date in the
    Capture Date column. *)
Definition badDateWorkbook : Workbook :=
  [ metadataSheet
      [ metadataCells [ (colSpecies, CStr "Moose"); (colDeviceId, CNum 103) ];
        metadataCells [ (colSpecies, CStr "Moose"); (colDeviceId, CNum 104);
                        (colCaptureDate, CStr "not a date") ] ];
    telemetrySheet ].

(** The same workbook without the second data row. *)
Definition goodDateWorkbook : Workbook :=
  [ metadataSheet
      [ metadataCells [ (colSpecies, CStr "Moose"); (colDeviceId, CNum 103) ] ];
    telemetrySheet ].

(** The round trips of the bulk upsert, as opposed to the look-ups of the
    validator. *)
Definition orchestratorEvent (ev : Event) : bool :=
  match ev with
  | EvUpsertBulk _ _ _ | EvLinkCollar _ _ => true
  | _ => false
  end.

(** ** The other functions of the module *)

(** *** Column names of the validation sheet *)

(** A JavaScript string built by [String.fromCharCode] is kept as its
    UTF-16 code units. *)
Definition fromCharCode (n : N) : N := (n mod 65536)%N.

Definition computeXLSXCol (idx : N) : list N :=
  let str : list N := [] in
  let a := (idx / 26)%N in
  let str := if (0 <? a)%N then str ++ [fromCharCode (65 + a - 1)] else str in
  str ++ [fromCharCode (65 + (idx - a * 26))].

(** The capital letters A .. Z. *)
Definition isCapital (c : N) : bool := (65 <=? c)%N && (c <=? 90)%N.

(** The 0-based index of the worksheet column a one- or two-letter name
    stands for: A is 0, Z is 25, AA is 26. *)
Definition columnIndex (name : list N) : option N :=
  match name with
  | [c] => if isCapital c then Some (c - 65)%N else None
  | [c1; c2] =>
      if isCapital c1 && isCapital c2
      then Some ((c1 - 64) * 26 + (c2 - 65))%N else None
  | _ => None
  end.

(** *** The CSV import *)

Record ParsedCSVResult := {
  both : list Row;
  animals : list Row;
  collars : list Row;
  points : list Row;
}.

(** What a handler sends back: [res.send(r)], [res.status(n).send(msg)],
    or the sheets of [importXlsx]. *)
Inductive Reply : Type :=
| Send (r : IBulkResponse)
| SendStatus (status : nat) (msg : string)
| SendSheets (obj : list ParsedXLSXSheetResult).

Section CsvImport.
Context (st : Store).
(** The type guards of [../types/import_types] and [upsertPointTelemetry]
    of [../apis/map_api]. *)
Context (isAnimalAndDevice isHistoricalTelemtry isAnimal isCollar : Row → bool).
Context (upsertPointTelemetry : string → list Row → IBulkResponse).

(** The handler of the ['data'] event of [parseCSV]. *)
Definition onData (ret : ParsedCSVResult) (r : gmap string Value)
    : ParsedCSVResult :=
  let crow := removeEmptyProps r in
  if isAnimalAndDevice crow then
    {| both := both ret ++ [crow]; animals := animals ret;
       collars := collars ret; points := points ret |}
  else if isHistoricalTelemtry crow then
    {| both := both ret; animals := animals ret;
       collars := collars ret; points := points ret ++ [crow] |}
  else if isAnimal crow then
    {| both := both ret; animals := animals ret ++ [crow];
       collars := collars ret; points := points ret |}
  else if isCollar crow then
    {| both := both ret; animals := animals ret;
       collars := collars ret ++ [crow]; points := points ret |}
  else ret.

(** [parseCSV]: what the callback receives once the stream has ended. *)
Definition parseCSV (rs : list (gmap string Value)) : ParsedCSVResult :=
  foldl onData {| both := []; animals := []; collars := []; points := [] |} rs.

(** The callback [onFinishedParsing] of [importCsv]; [None] when the
    attachment phase never returns. *)
Definition onFinishedParsingCsv (id : string) (obj : ParsedCSVResult)
    (log : list (nat * Settled)) : list Event * option Reply :=
  if Nat.eqb (length (animals obj ++ collars obj ++ points obj ++ both obj)) 0
  then
    ([], Some (SendStatus 404 "import failed - rows did not match any known type"))
  else if negb (Nat.eqb (length (points obj)) 0) then
    ([], Some (Send (upsertPointTelemetry id (points obj))))
  else if negb (Nat.eqb (length (both obj)) 0) then
    let '(t, r) := handleBulkMetadata st id (both obj) log in
    (t, Send <$> r)
  else if negb (Nat.eqb (length (collars obj)) 0) then
    ([EvUpsertBulk id (collars obj) device],
     Some (Send (upsertBulk st id (collars obj) device)))
  else if negb (Nat.eqb (length (animals obj)) 0) then
    ([EvUpsertBulk id (animals obj) animal],
     Some (Send (upsertBulk st id (animals obj) animal)))
  else ([], Some (Send {| br_errors := []; br_results := [] |})).

Definition importCsv (id : string) (rs : list (gmap string Value))
    (log : list (nat * Settled)) : list Event * option Reply :=
  onFinishedParsingCsv id (parseCSV rs) log.

End CsvImport.

(** *** The XLSX import and the template *)

Section XlsxImport.
Context (st : Store).

(** [importXlsx] with its callback [onFinishedParsing]. *)
Definition importXlsx (id : string) (wb : Workbook) : list Event * Reply :=
  let '(t, obj) := parseXlsx st id wb in
  (t, if negb (Nat.eqb (length obj) 0) then SendSheets obj
      else SendStatus 500 "Failed parsing the XLSX file.").

(** What [getTemplateFile] writes for one code header: the validation
    column it fills and the codes it puts there. *)
Record TemplateValidation := {
  tv_header_idx : nat;
  tv_val_col : list N;
  tv_codes : list string;
}.

(** The loop of [getTemplateFile] from the header cell [header_idx] on,
    [cells] being the texts of the cells still to visit and [codes] the
    descriptions [get_code] returns for the caller's IDIR. *)
Fixpoint templateLoop (codes : string → list string) (cells : list string)
    (header_idx : nat) (val_header_idx : N) : list TemplateValidation :=
  match cells with
  | [] => []
  | text :: rest =>
      let header := mapXlsxHeader st text in
      if bool_decide (header ∈ code_header st ++ extraCodeFields) then
        {| tv_header_idx := header_idx;
           tv_val_col := computeXLSXCol val_header_idx;
           tv_codes := codes header |}
        :: templateLoop codes rest (S header_idx) (val_header_idx + 1)%N
      else templateLoop codes rest (S header_idx) val_header_idx
  end.

(** [for (header_idx = 1; header_idx < headerRow.cellCount; header_idx++)]
    over the texts of the cells 1 .. [cellCount] of the header row. *)
Definition templateValidations (codes : string → list string)
    (cells : list string) : list TemplateValidation :=
  templateLoop codes (take (length cells - 1) cells) 1 0%N.

End XlsxImport.

(** *** Files to run the other functions on *)

(** Stand-ins for the type guards and for the telemetry upsert. *)
Definition demoIsAnimalAndDevice (r : Row) : bool :=
  truthy (r !! "animal_id") && truthy (r !! "device_id").
Definition demoIsHistoricalTelemtry (r : Row) : bool :=
  truthy (r !! "latitude") && truthy (r !! "longitude").
Definition demoIsAnimal (r : Row) : bool := truthy (r !! "animal_id").
Definition demoIsCollar (r : Row) : bool := truthy (r !! "device_id").
Definition demoUpsertPointTelemetry (id : string) (rs : list Row)
    : IBulkResponse :=
  {| br_errors := []; br_results := rs |}.

(** A CSV file with one animal-and-device row and one telemetry point. *)
Definition csvAnimalWithDevice : gmap string Value :=
  {[ "animal_id" := Some (CStr "A1"); "device_id" := Some (CStr "101");
     "species" := Some (CStr "Moose") ]}.
Definition csvPoint : gmap string Value :=
  {[ "device_id" := Some (CStr "101"); "latitude" := Some (CStr "54.1");
     "longitude" := Some (CStr "-124.2");
     "elevation" := Some (CStr EmptyString) ]}.
Definition csvFile : list (gmap string Value) := [csvAnimalWithDevice; csvPoint].

(** A workbook whose first two Device Metadata headers are swapped. *)
Definition swappedHeadersWorkbook : Workbook :=
  [ {| sheet_name := deviceMetadataSheetName;
       header_row :=
         Some <$> ("Animal ID" :: "Wildlife Health ID"
                     :: drop 2 metadataRequiredHeaders);
       data_rows :=
         [ metadataCells [ (colSpecies, CStr "Moose"); (colDeviceId, CNum 103) ] ] |};
    telemetrySheet ].

(** A workbook without a Telemetry sheet. *)
Definition metadataOnlyWorkbook : Workbook :=
  [ metadataSheet
      [ metadataCells [ (colSpecies, CStr "Moose"); (colDeviceId, CNum 103) ] ] ].

(** A workbook with one telemetry row, whose latitude is text. *)
Definition telemetryWorkbook : Workbook :=
  [ metadataSheet [];
    {| sheet_name := telemetrySheetName;
       header_row := Some <$> telemetryRequiredHeaders;
       data_rows := [ [Some (CNum 101); Some (CStr "north")] ] |} ].

Definition telemetryRequirement : SheetRequirements :=
  {| sheetName := telemetrySheetName;
     requiredHeaders := telemetryRequiredHeaders |}.
Definition metadataRequirement : SheetRequirements :=
  {| sheetName := deviceMetadataSheetName;
     requiredHeaders := metadataRequiredHeaders |}.

(** The header row of a small template: species, sex and the device make
    are code headers on the demo store. *)
Definition templateCells : list string :=
  ["Species"; "Animal ID"; "Sex"; "Device Make"].

Definition collarWithoutDevice : Row := {[ "collar_id" := CStr "k9" ]}.
Definition collarWithNullDevice : Row :=
  {[ "collar_id" := CStr "k8"; "device_id" := CNull ]}.


Definition linkPassed : QResult := {| isError := false; error := None |}.

(** The demo store answering for the history of a device by the printed
    id, as the CSV parser hands every cell over as text. *)
Definition csvStore : Store :=
  {| now := now demoStore;
     Date_parse := Date_parse demoStore;
     toISODate := toISODate demoStore;
     Date_toString := Date_toString demoStore;
     information_schema_columns := information_schema_columns demoStore;
     code_header := code_header demoStore;
     get_code := get_code demoStore;
     get_device_assignment_history := λ d,
       if String.eqb (toString demoStore d) "101" then
         [ {| attachment_start := Some (CDate ms_2020_01_01);
              attachment_end := Some (CDate ms_2020_06_01) |} ]
       else [];
     get_animal_collar_assignment_history :=
       get_animal_collar_assignment_history demoStore;
     is_new_animal := is_new_animal demoStore;
     mapXlsxHeader := mapXlsxHeader demoStore;
     rowToCsv := rowToCsv demoStore;
     upsertBulk := upsertBulk demoStore |}.

(** Scenario B as a line of a CSV file, and the row [parseCSV] makes of
    it. *)
Definition csvScenarioB : gmap string Value :=
  {[ "animal_id" := Some (CStr "A1"); "species" := Some (CStr "Moose");
     "device_id" := Some (CStr "101");
     "capture_date" := Some (CStr "2020-03-01") ]}.
Definition rowCsvScenarioB : Row :=
  {[ "animal_id" := CStr "A1"; "species" := CStr "Moose";
     "device_id" := CStr "101"; "capture_date" := CStr "2020-03-01" ]}.


Definition rowWithDate : Row :=
  {[ "species" := CStr "Moose"; "capture_date" := CDate ms_2020_03_01 ]}.

(** Two rows without a usable device id: none, and the number 0. *)
Definition rowsWithoutDevice : list Row :=
  [ {[ "animal_id" := CStr "A1" ]};
    {[ "animal_id" := CStr "A2"; "device_id" := CNum 0 ]} ].

(** A store whose schema lists the column [valid_from] for both tables,
    with different data types. *)
Definition twoTablesStore : Store :=
  {| now := now demoStore;
     Date_parse := Date_parse demoStore;
     toISODate := toISODate demoStore;
     Date_toString := Date_toString demoStore;
     information_schema_columns :=
       [ ("valid_from", "timestamp with time zone"); ("device_id", "integer");
         ("valid_from", "text") ];
     code_header := code_header demoStore;
     get_code := get_code demoStore;
     get_device_assignment_history := get_device_assignment_history demoStore;
     get_animal_collar_assignment_history :=
       get_animal_collar_assignment_history demoStore;
     is_new_animal := is_new_animal demoStore;
     mapXlsxHeader := mapXlsxHeader demoStore;
     rowToCsv := rowToCsv demoStore;
     upsertBulk := upsertBulk demoStore |}.

(** * Properties *)

(** ** The per-field checks *)

Section GenericErrors.
Context (st : Store).

Lemma foldl_cellError_lookup codeFields columnTypes
    (l : list (string * Cell)) (acc : ParsedXLSXCellError) (k : string) :
  NoDup l.*1 →
  foldl (λ (errors : ParsedXLSXCellError) kv,
           match cellError st codeFields columnTypes kv.1 kv.2 with
           | Some e => <[kv.1 := e]> errors
           | None => errors
           end) acc l !! k
  = match (list_to_map l : Row) !! k ≫= cellError st codeFields columnTypes k with
    | Some e => Some e
    | None => acc !! k
    end.
Proof.
  revert acc. induction l as [|[k' v] l IH]; intros acc Hnd; simpl.
  - by rewrite lookup_empty.
  - apply NoDup_cons in Hnd as [Hk' Hnd]. rewrite IH by done.
    destruct (decide (k' = k)) as [->|Hne].
    + rewrite lookup_insert_eq.
      rewrite (not_elem_of_list_to_map_1 _ _ Hk'). simpl.
      destruct (cellError st codeFields columnTypes k v); [|done].
      by rewrite lookup_insert_eq.
    + rewrite lookup_insert_ne by done.
      destruct (list_to_map l !! k ≫= _); [done|].
      destruct (cellError st codeFields columnTypes k' v); [|done].
      by rewrite lookup_insert_ne.
Qed.

(** The loop of [checkGenericErrors] leaves under each key of the row what
    its body computes for that cell, and nothing under any other key. *)
Lemma checkGenericErrors_lookup (r : Row) codeFields columnTypes k :
  checkGenericErrors st r codeFields columnTypes !! k
  = r !! k ≫= cellError st codeFields columnTypes k.
Proof.
  unfold checkGenericErrors.
  rewrite foldl_cellError_lookup by apply NoDup_fst_map_to_list.
  rewrite list_to_map_to_list, lookup_empty.
  by destruct (r !! k ≫= _).
Qed.

(** C9: a cell of a code field whose value is not among the descriptions
    fetched for that field gets an error under exactly that field's key,
    and the error's [valid_values] is the whole list of descriptions; the
    errors under the other keys are those of the row without the cell. *)
Theorem code_field_error_lists_domain (r : Row) (codeFields : list string)
    (columnTypes : gmap string string) (key : string) (v : Cell) :
  key ∈ codeFields →
  r !! key = Some v →
  includes (get_code st key) (Some v) = false →
  checkGenericErrors st r codeFields columnTypes !! key
    = Some {| desc := "This value is not a valid code for this field.";
              help := "This field must contain a value from the list of acceptable values.";
              valid_values := Some (get_code st key) |}
  ∧ ∀ key', key' ≠ key →
      checkGenericErrors st r codeFields columnTypes !! key'
      = checkGenericErrors st (delete key r) codeFields columnTypes !! key'.
Proof.
  intros Hcode Hv Hnot. split.
  - rewrite checkGenericErrors_lookup, Hv. simpl. unfold cellError.
    rewrite bool_decide_eq_true_2 by done. by rewrite Hnot.
  - intros key' Hne. rewrite !checkGenericErrors_lookup.
    by rewrite lookup_delete_ne.
Qed.

End GenericErrors.

(** Scenario C: species Caribou is not in the species domain. *)
Lemma code_field_error_lists_domain_witness :
  checkGenericErrors demoStore
      {[ "species" := CStr "Caribou"; "device_id" := CNum 102 ]}
      (code_header demoStore ++ extraCodeFields) (obtainColumnTypes demoStore)
    !! "species"
  = Some {| desc := "This value is not a valid code for this field.";
            help := "This field must contain a value from the list of acceptable values.";
            valid_values := Some ["Moose"; "Grey Wolf"; "Grizzly Bear"] |}.
Proof.
  apply (code_field_error_lists_domain demoStore
           {[ "species" := CStr "Caribou"; "device_id" := CNum 102 ]}
           (code_header demoStore ++ extraCodeFields)
           (obtainColumnTypes demoStore) "species" (CStr "Caribou")).
  - by apply (bool_decide_unpack _).
  - reflexivity.
  - reflexivity.
Defined.

(** ** Required fields and the cross-row checks *)

Section CrossRow.
Context (st : Store).

Lemma requireFields_absent (r : Row) :
  r !! "species" = None ∨ r !! "device_id" = None → requireFields r = false.
Proof.
  unfold requireFields. intros [-> | ->]; simpl; [done|].
  by rewrite andb_false_r.
Qed.

(** C3: when the species or the device identifier of a row is absent, the
    check of a device-metadata row returns exactly one error, under the key
    [missing_data], no warning, and makes none of the round trips of the
    cross-row checks (device history, animal history, animal uniqueness). *)
Theorem missing_required_field_single_error
    (rowres : ParsedXLSXRowResult) (user : string) :
  row rowres !! "species" = None ∨ row rowres !! "device_id" = None →
  checkAnimalDeviceErrorsAndWarns st rowres user
    = ([], Returned {| ew_errors := {[ "missing_data" := missingDataError ]};
                       ew_warnings := [] |})
  ∧ size ({[ "missing_data" := missingDataError ]} : ParsedXLSXCellError) = 1.
Proof.
  intros Habs. split.
  - unfold checkAnimalDeviceErrorsAndWarns.
    by rewrite (requireFields_absent _ Habs).
  - apply map_size_singleton.
Qed.

End CrossRow.

(** Scenario A: a row with neither [device_id] nor [species]. *)
Lemma missing_required_field_single_error_witness :
  checkAnimalDeviceErrorsAndWarns demoStore
    {| row := {[ "animal_id" := CStr "A7" ]}; errors := ∅;
       warnings := []; success := false |} "jdoe"
  = ([], Returned {| ew_errors := {[ "missing_data" := missingDataError ]};
                     ew_warnings := [] |}).
Proof.
  apply (missing_required_field_single_error demoStore
           {| row := {[ "animal_id" := CStr "A7" ]}; errors := ∅;
              warnings := []; success := false |} "jdoe").
  left. reflexivity.
Defined.

(** ** Assignment overlap *)

Section Assignment.
Context (st : Store).

Lemma verifyAssignment_returns (r : Row) (user : string) :
  ∃ t ew, verifyAssignment st r user = (t, Returned ew)
    ∧ Forall (λ ev, orchestratorEvent ev = false) t
    ∧ ew_errors ew =
        (if existsb (overlapsRow st r)
              (get_device_assignment_history st (r !! "device_id"))
         then {[ "device_id" := deviceAssignedError ]} else ∅)
    ∧ ew_warnings ew =
        (if existsb (overlapsRow st r)
              (get_device_assignment_history st (r !! "device_id"))
         then []
         else if negb (Nat.eqb (length (get_device_assignment_history st
                                          (r !! "device_id"))) 0)
         then [previousDeploymentsWarning st r] else [])
        ++ (if truthy (r !! "critter_id")
               && existsb (overlapsRow st r)
                    (get_animal_collar_assignment_history st user
                       (r !! "critter_id"))
            then [multipleDevicesWarning] else []).
Proof.
  unfold verifyAssignment.
  destruct (existsb _ (get_device_assignment_history _ _)) eqn:Hdev;
    [|destruct (negb _) eqn:Hlen];
    (destruct (truthy (r !! "critter_id")) eqn:Hcr; simpl;
     [destruct (existsb _ (get_animal_collar_assignment_history _ _ _)) eqn:Han|]);
    simpl; eexists _, _; (split; [reflexivity|]);
    simpl; rewrite ?app_nil_r; repeat split; repeat constructor.
Qed.

Lemma checkAnimalDeviceErrorsAndWarns_row (a b : ParsedXLSXRowResult) user :
  row a = row b →
  checkAnimalDeviceErrorsAndWarns st a user
  = checkAnimalDeviceErrorsAndWarns st b user.
Proof.
  intros Hrow. unfold checkAnimalDeviceErrorsAndWarns, verifyUniqueAnimals.
  by rewrite Hrow.
Qed.

(** With both required fields present the check returns the errors of
    [verifyAssignment], and its warnings followed by at most the
    new-animal warning; it makes no round trip of the bulk upsert. *)
Lemma checkAnimalDeviceErrorsAndWarns_required
    (rowres : ParsedXLSXRowResult) (user : string) :
  requireFields (row rowres) = true →
  ∃ t t' ew ew', verifyAssignment st (row rowres) user = (t, Returned ew)
    ∧ checkAnimalDeviceErrorsAndWarns st rowres user = (t', Returned ew')
    ∧ Forall (λ ev, orchestratorEvent ev = false) t'
    ∧ ew_errors ew' = ew_errors ew
    ∧ ew_warnings ew' =
        ew_warnings ew ++
          (if is_new_animal st (row rowres) then [newAnimalWarning] else []).
Proof.
  intros Hreq.
  destruct (verifyAssignment_returns (row rowres) user)
    as (t & ew & Hva & Ht & _).
  unfold checkAnimalDeviceErrorsAndWarns. rewrite Hreq, Hva. simpl.
  destruct (is_new_animal st (row rowres)); simpl;
    eexists t, _, ew, _; (split; [reflexivity|]); (split; [reflexivity|]);
    rewrite ?app_nil_r; repeat split;
    apply Forall_app; split; auto; repeat constructor.
Qed.

End Assignment.

(** ** Rows of the parsed workbook *)

Section Parsed.
Context (st : Store).

Lemma emapM_Returned {A B} (f : A → Eff B) (l : list A) t (bs : list B) :
  emapM f l = (t, Returned bs) →
  Forall2 (λ a b, ∃ t', f a = (t', Returned b)) l bs.
Proof.
  revert t bs. induction l as [|a l IH]; intros t bs; simpl.
  - unfold eret. intros [= <- <-]. constructor.
  - unfold ebind at 1. destruct (f a) as [ta [b|e]] eqn:Hfa; [|done].
    unfold ebind. destruct (emapM f l) as [tl [bs'|e]] eqn:Hl; simpl; [|done].
    intros [= <- <-]. constructor; eauto.
Qed.

(** What [parseRow] returns when it does not throw: the per-field errors
    of the cleaned row, overridden key by key with the errors of the
    device-metadata check on the Device Metadata sheet, and the success
    flag computed from that mapping. *)
Lemma parseRow_Returned user name codeFields hs values t rr :
  parseRow st user name codeFields hs values = (t, Returned rr) →
  success rr = Nat.eqb (size (errors rr)) 0
  ∧ if String.eqb name deviceMetadataSheetName then
      ∃ ew, checkAnimalDeviceErrorsAndWarns st rr user = (t, Returned ew)
        ∧ errors rr
          = ew_errors ew
              ∪ checkGenericErrors st (removeEmptyProps (rowWithHeader hs values))
                  codeFields (obtainColumnTypes st)
        ∧ warnings rr = ew_warnings ew
    else
      t = []
      ∧ errors rr
        = checkGenericErrors st (removeEmptyProps (rowWithHeader hs values))
            codeFields (obtainColumnTypes st)
      ∧ warnings rr = [].
Proof.
  unfold parseRow, elift.
  destruct (convertDates _ _ _) as [crow'|e]; simpl; [|done].
  destruct (String.eqb name deviceMetadataSheetName).
  - set (rowObj := {| row := crow'; errors := _; warnings := []; success := false |}).
    destruct (checkAnimalDeviceErrorsAndWarns st rowObj user)
      as [tc [ew|e]] eqn:Hc; simpl; [|done].
    intros [= <- <-]. simpl. split; [done|].
    exists ew. rewrite !app_nil_r. split; [|done].
    rewrite <- Hc. by apply checkAnimalDeviceErrorsAndWarns_row.
  - simpl. intros [= <- <-]. simpl. done.
Qed.

Lemma parseSheet_rows user wb codeFields req t sr rr :
  parseSheet st user wb codeFields req = (t, Returned sr) →
  rr ∈ rows sr →
  ∃ name hs values t',
    String.eqb name (sheetName req) = true
    ∧ parseRow st user name codeFields hs values = (t', Returned rr).
Proof.
  unfold parseSheet, getWorksheet.
  destruct (List.find _ wb) as [sheet|] eqn:Hfind; [|done].
  apply find_some in Hfind as [_ Hname].
  destruct (negb _); [done|].
  destruct (lastRow sheet); [|done].
  unfold ebind.
  destruct (emapM _ _) as [tm [rs|e]] eqn:Hm; simpl; [|done].
  intros [= <- <-]. simpl. intros Hin.
  apply emapM_Returned in Hm.
  apply list_elem_of_lookup in Hin as [i Hi].
  destruct (Forall2_lookup_r _ _ _ _ _ Hm Hi) as (values & _ & t' & Hrow).
  eauto 8.
Qed.

Lemma parseSheets_rows user wb codeFields reqs acc t res sr :
  parseSheets st user wb codeFields reqs acc = (t, res) →
  sr ∈ res →
  sr ∈ acc ∨ ∃ req t', parseSheet st user wb codeFields req = (t', Returned sr).
Proof.
  revert acc t res. induction reqs as [|req reqs IH]; intros acc t res; simpl.
  - intros [= <- <-]. auto.
  - destruct (parseSheet st user wb codeFields req) as [ts [sr'|e]] eqn:Hs.
    + destruct (parseSheets _ _ _ _ reqs _) as [t' res'] eqn:Hrest.
      intros [= <- <-] Hin.
      destruct (IH _ _ _ Hrest Hin) as [Hacc|Hnew]; [|by right].
      apply elem_of_app in Hacc as [?|Hsr]; [by left|].
      apply list_elem_of_singleton in Hsr as ->. right. eauto.
    + intros [= <- <-]. auto.
Qed.

(** Every row in the output of [parseXlsx] was returned by [parseRow]. *)
Lemma parseXlsx_rows user wb sr rr :
  sr ∈ (parseXlsx st user wb).2 →
  rr ∈ rows sr →
  ∃ name hs values t',
    parseRow st user name (code_header st ++ extraCodeFields) hs values
    = (t', Returned rr).
Proof.
  unfold parseXlsx. intros Hsr Hrr.
  destruct (parseSheets _ _ _ _ _ _) as [t res] eqn:Hp. simpl in Hsr.
  destruct (parseSheets_rows _ _ _ _ _ _ _ _ Hp Hsr) as [Hnil|(req & t' & Hs)].
  - by apply elem_of_nil in Hnil.
  - destruct (parseSheet_rows _ _ _ _ _ _ _ Hs Hrr)
      as (name & hs & values & t'' & _ & Hrow). eauto.
Qed.

(** The first sheet result, when there is one, is that of the Device
    Metadata sheet. *)
Lemma parseXlsx_first user wb sr rr :
  (parseXlsx st user wb).2 !! 0 = Some sr →
  rr ∈ rows sr →
  ∃ hs values t',
    parseRow st user deviceMetadataSheetName
      (code_header st ++ extraCodeFields) hs values = (t', Returned rr).
Proof.
  unfold parseXlsx, sheetRequirements. simpl.
  destruct (parseSheet st user wb _ _) as [t1 [sr1|e]] eqn:Hs1; [|done].
  destruct (parseSheet st user wb _ {| sheetName := telemetrySheetName;
              requiredHeaders := _ |}) as [t2 [sr2|e]]; simpl;
    intros [= <-] Hrr;
    destruct (parseSheet_rows _ _ _ _ _ _ _ Hs1 Hrr)
      as (name & hs & values & t' & Hname & Hrow);
    apply String.eqb_eq in Hname; simpl in Hname; subst name; eauto.
Qed.

(** C5: for every row in the output of [parseXlsx], the success flag is
    true exactly when the row's error mapping is empty; the flag is
    computed from the error mapping alone, so no warning (prompting or
    not) has a part in it. *)
Theorem success_iff_no_errors (user : string) (wb : Workbook)
    (sr : ParsedXLSXSheetResult) (rr : ParsedXLSXRowResult) :
  sr ∈ (parseXlsx st user wb).2 →
  rr ∈ rows sr →
  (success rr = true ↔ errors rr = ∅)
  ∧ success rr = Nat.eqb (size (errors rr)) 0.
Proof.
  intros Hsr Hrr.
  destruct (parseXlsx_rows _ _ _ _ Hsr Hrr) as (name & hs & values & t' & Hrow).
  apply parseRow_Returned in Hrow as [Hsucc _].
  split; [|done]. rewrite Hsucc, Nat.eqb_eq. apply map_size_empty_iff.
Qed.

(** A row of the Device Metadata sheet that lacks the species or the
    device id leaves [parseXlsx] with the error [missing_data] next to the
    per-field errors of its cells, with no warning and without any round
    trip. *)
Lemma parseXlsx_missing_required_field user wb sr rr :
  (parseXlsx st user wb).2 !! 0 = Some sr → rr ∈ rows sr →
  row rr !! "species" = None ∨ row rr !! "device_id" = None →
  errors rr !! "missing_data" = Some missingDataError
  ∧ warnings rr = []
  ∧ success rr = false.
Proof.
  intros Hsr Hrr Habs.
  destruct (parseXlsx_first _ _ _ _ Hsr Hrr) as (hs & values & t' & Hrow).
  apply parseRow_Returned in Hrow as [Hsucc Hdev].
  rewrite String.eqb_refl in Hdev. destruct Hdev as (ew & Hc & Herrs & Hw).
  unfold checkAnimalDeviceErrorsAndWarns in Hc.
  rewrite (requireFields_absent _ Habs) in Hc. simpl in Hc.
  injection Hc as _ <-. simpl in *.
  assert (Hlook : errors rr !! "missing_data" = Some missingDataError).
  { rewrite Herrs. apply lookup_union_Some_l, lookup_singleton_eq. }
  split; [done|]. split; [done|].
  rewrite Hsucc. apply Nat.eqb_neq. intros Hsize.
  apply map_size_empty_iff in Hsize. by rewrite Hsize, lookup_empty in Hlook.
Qed.

(** C4, as the code has it: [verifyAssignment] always returns.  If some
    interval of the history of the row's device overlaps the candidate
    interval [capture_date ?? now, retrieval_date ?? mortality_date ??
    open), the only error it returns is the hard error under [device_id],
    without the previous-deployments warning.  Otherwise, if the device
    has any history, it returns no error and the previous-deployments
    warning, whose [prompt] is false.  The error keeps no upsert back:
    [handleBulkMetadata], given a batch that holds the row, begins with
    the device upsert of the whole batch whatever the history says. *)
Theorem device_overlap_is_hard_error (r : Row) (user : string) :
  let deviceLinks := get_device_assignment_history st (r !! "device_id") in
  (∃ t ew, verifyAssignment st r user = (t, Returned ew)
     ∧ (existsb (overlapsRow st r) deviceLinks = true →
          ew_errors ew = {[ "device_id" := deviceAssignedError ]}
          ∧ previousDeploymentsWarning st r ∉ ew_warnings ew)
     ∧ (existsb (overlapsRow st r) deviceLinks = false → deviceLinks ≠ [] →
          ew_errors ew = ∅
          ∧ previousDeploymentsWarning st r ∈ ew_warnings ew
          ∧ prompt (previousDeploymentsWarning st r) = false))
  ∧ (∀ rs log, r ∈ rs →
       ∃ t, (handleBulkMetadata st user rs log).1
            = EvUpsertBulk user rs device :: t).
Proof.
  intros deviceLinks. split.
  - destruct (verifyAssignment_returns st r user)
      as (t & ew & Hva & _ & Herr & Hwarn).
    exists t, ew. split; [done|]. fold deviceLinks in Herr, Hwarn.
    split.
    + intros Hov. rewrite Hov in Herr, Hwarn. split; [done|].
      rewrite Hwarn. simpl. destruct (_ && _); [|apply not_elem_of_nil].
      intros Hin. by apply list_elem_of_singleton in Hin.
    + intros Hov Hne. rewrite Hov in Herr, Hwarn. split; [done|].
      split; [|done]. rewrite Hwarn.
      destruct deviceLinks; [done|]. simpl. apply list_elem_of_here.
  - intros rs log _. unfold handleBulkMetadata.
    destruct (negb (Nat.eqb (length (br_errors (upsertBulk st user rs device))) 0));
      [by eexists|].
    destruct (negb (Nat.eqb (length (br_errors (upsertBulk st user rs animal))) 0));
      [by eexists|].
    destruct (_ && _); [|by eexists].
    destruct (handleCollarCritterLink _ _ _ _ _ _ _) as [t' resp].
    by eexists.
Qed.

(** C8: when the row names an animal ([critter_id]) and some interval of
    that animal's attachment history overlaps the candidate interval,
    [verifyAssignment] returns the warning about multiple devices, whose
    [prompt] is true, and the errors it returns are those the device's own
    history decides: the condition adds no error. *)
Theorem animal_overlap_prompts_without_error (r : Row) (user : string) :
  truthy (r !! "critter_id") = true →
  existsb (overlapsRow st r)
    (get_animal_collar_assignment_history st user (r !! "critter_id")) = true →
  ∃ t ew, verifyAssignment st r user = (t, Returned ew)
    ∧ multipleDevicesWarning ∈ ew_warnings ew
    ∧ prompt multipleDevicesWarning = true
    ∧ ew_errors ew =
        (if existsb (overlapsRow st r)
              (get_device_assignment_history st (r !! "device_id"))
         then {[ "device_id" := deviceAssignedError ]} else ∅).
Proof.
  intros Hcr Hov.
  destruct (verifyAssignment_returns st r user)
    as (t & ew & Hva & _ & Herr & Hwarn).
  exists t, ew. split; [done|]. split; [|done].
  rewrite Hwarn, Hcr, Hov. simpl. apply elem_of_app. right.
  apply list_elem_of_here.
Qed.

End Parsed.

(** Scenario B on the demo store, and a row whose device was only deployed
    earlier. *)
Lemma device_overlap_is_hard_error_witness :
  (∃ t ew, verifyAssignment demoStore rowScenarioB "jdoe" = (t, Returned ew)
     ∧ ew_errors ew = {[ "device_id" := deviceAssignedError ]})
  ∧ (∃ t ew, verifyAssignment demoStore rowEarlierDeployment "jdoe"
              = (t, Returned ew)
       ∧ ew_errors ew = ∅
       ∧ previousDeploymentsWarning demoStore rowEarlierDeployment
           ∈ ew_warnings ew).
Proof.
  split.
  - destruct (device_overlap_is_hard_error demoStore rowScenarioB "jdoe")
      as [(t & ew & Hva & Hov & _) _].
    exists t, ew. split; [exact Hva|]. apply Hov. reflexivity.
  - destruct (device_overlap_is_hard_error demoStore rowEarlierDeployment "jdoe")
      as [(t & ew & Hva & _ & Hhist) _].
    exists t, ew. split; [exact Hva|].
    destruct Hhist as (He & Hw & _); [reflexivity|discriminate|].
    split; [exact He|exact Hw].
Defined.

(** C4 as stated fails: device 101 is deployed from 2020-01-01 to
    2020-06-01 and the line of the CSV file puts it on an animal on
    2020-03-01.  [verifyAssignment] has the hard error for that row, and
    [importCsv] hands the row to [handleBulkMetadata] all the same: the
    device and the animal are upserted and the link query is sent. *)
Lemma overlapping_device_row_is_upserted :
  removeEmptyProps csvScenarioB = rowCsvScenarioB
  ∧ existsb (overlapsRow csvStore rowCsvScenarioB)
      (get_device_assignment_history csvStore (rowCsvScenarioB !! "device_id"))
    = true
  ∧ (∃ t ew, verifyAssignment csvStore rowCsvScenarioB "jdoe" = (t, Returned ew)
       ∧ ew_errors ew = {[ "device_id" := deviceAssignedError ]})
  ∧ ∃ body,
      importCsv csvStore demoIsAnimalAndDevice demoIsHistoricalTelemtry
        demoIsAnimal demoIsCollar demoUpsertPointTelemetry "jdoe"
        [csvScenarioB] (resolvedLog [(0, linkPassed)])
      = ( [ EvUpsertBulk "jdoe" [rowCsvScenarioB] device;
            EvUpsertBulk "jdoe" [rowCsvScenarioB] animal;
            EvLinkCollar "jdoe" body ],
          Some (Send {|
            br_errors := [];
            br_results :=
              [ successRecord "1 devices were successfully added";
                successRecord "1 animals were successfully added";
                sucessRecord "A1 successfully attached to 101" ] |}) ).
Proof.
  split; [vm_compute; reflexivity|]. split; [vm_compute; reflexivity|]. split.
  - eexists _, _. split; [vm_compute; reflexivity|]. reflexivity.
  - eexists. vm_compute. reflexivity.
Qed.

Lemma animal_overlap_prompts_without_error_witness :
  ∃ t ew, verifyAssignment demoStore rowSecondDevice "jdoe" = (t, Returned ew)
    ∧ multipleDevicesWarning ∈ ew_warnings ew
    ∧ ew_errors ew = ∅.
Proof.
  destruct (animal_overlap_prompts_without_error demoStore rowSecondDevice "jdoe")
    as (t & ew & Hva & Hw & _ & He); [reflexivity|reflexivity|].
  exists t, ew. split; [exact Hva|]. split; [exact Hw|exact He].
Defined.

Lemma success_iff_no_errors_witness :
  let out := (parseXlsx demoStore "jdoe" demoWorkbook).2 in
  length (firstSheetRows out) = 3
  ∧ Forall (λ rr, success rr = true ↔ errors rr = ∅) (firstSheetRows out).
Proof.
  intros out. split; [vm_compute; reflexivity|].
  apply Forall_forall. intros rr Hrr.
  apply (success_iff_no_errors demoStore "jdoe" demoWorkbook
           (default noSheet (out !! 0)) rr).
  - apply list_elem_of_lookup. exists 0. vm_compute. reflexivity.
  - exact Hrr.
Defined.

(** ** The phases of the bulk upsert *)

Section Phases.
Context (st : Store).

Lemma length_eqb_0 {A} (l : list A) :
  Nat.eqb (length l) 0 = bool_decide (l = []).
Proof. by destruct l. Qed.

(** C1: when the device phase returns a row error, [handleBulkMetadata]
    returns the device phase's result as it is and its only round trip is
    the device upsert: the animal upsert and the link queries are not
    made.  When the device phase returns no error and the animal phase
    returns one, it returns the animal phase's result and makes no link
    query. *)
Theorem phase_error_stops_later_phases (username : string) (rs : list Row)
    (log : list (nat * Settled)) :
  let collarResults := upsertBulk st username rs device in
  let animalResults := upsertBulk st username rs animal in
  (br_errors collarResults ≠ [] →
     handleBulkMetadata st username rs log
     = ([EvUpsertBulk username rs device], Some collarResults))
  ∧ (br_errors collarResults = [] → br_errors animalResults ≠ [] →
     handleBulkMetadata st username rs log
     = ([EvUpsertBulk username rs device; EvUpsertBulk username rs animal],
        Some animalResults)).
Proof.
  intros collarResults animalResults. unfold handleBulkMetadata.
  fold collarResults animalResults. rewrite !length_eqb_0. split.
  - intros Hdev. by rewrite bool_decide_eq_false_2.
  - intros Hdev Han. rewrite (bool_decide_eq_true_2 _ Hdev). simpl.
    by rewrite bool_decide_eq_false_2.
Qed.


Lemma foldl_report (b : IBulkResponse)
    (cvs : list (ICrittersWithDevices * Settled)) :
  foldl (λ b (cv : ICrittersWithDevices * Settled), report st b cv.1 cv.2) b cvs
  = {| br_errors := br_errors b ++
         omap (λ cv : ICrittersWithDevices * Settled,
                 match cv.2 with
                 | Rejected reason => Some (attachmentError st cv.1 reason)
                 | Fulfilled => None
                 end) cvs;
       br_results := br_results b ++
         omap (λ cv : ICrittersWithDevices * Settled,
                 match cv.2 with
                 | Fulfilled => Some (attachmentSuccess st cv.1)
                 | Rejected _ => None
                 end) cvs |}.
Proof.
  revert b. induction cvs as [|[c v] cvs IH]; intros b; simpl.
  - rewrite !app_nil_r. by destruct b.
  - rewrite IH. destruct v; simpl; by rewrite <- ?app_assoc.
Qed.

Lemma allSettledFrom_lookup log i tasks values :
  allSettledFrom log i tasks = Some values →
  length values = length tasks
  ∧ ∀ j t, tasks !! j = Some t → values !! j = taskSettled log (i + j) t.
Proof.
  revert i values. induction tasks as [|t tasks IH]; intros i values; simpl.
  - intros [= <-]. split; [done|]. intros j t Hj. by destruct j.
  - destruct (taskSettled log i t) as [s|] eqn:Hs; [|done].
    destruct (allSettledFrom log (S i) tasks) as [ss|] eqn:Hss; [|done].
    intros [= <-]. destruct (IH _ _ Hss) as [Hlen Hlook]. split.
    + simpl. by rewrite Hlen.
    + intros [|j] t' Hj; simpl in *.
      * injection Hj as <-. by rewrite Nat.add_0_r.
      * rewrite (Hlook _ _ Hj). f_equal. lia.
Qed.

Lemma allSettledFrom_is_Some log i tasks :
  (∀ j t, tasks !! j = Some t → is_Some (taskSettled log (i + j) t)) →
  is_Some (allSettledFrom log i tasks).
Proof.
  revert i. induction tasks as [|t tasks IH]; intros i Hall; simpl; [done|].
  destruct (Hall 0 t eq_refl) as [s Hs]. rewrite Nat.add_0_r in Hs.
  rewrite Hs.
  destruct (IH (S i)) as [ss ->]; [|done].
  intros j t' Hj. specialize (Hall (S j) t' Hj).
  by replace (S i + j) with (i + S j) by lia.
Qed.

End Phases.

(** Scenario D, and a batch whose animal phase fails. *)
Lemma phase_error_stops_later_phases_witness :
  handleBulkMetadata deviceFailsStore "jdoe" threeRows []
  = ([EvUpsertBulk "jdoe" threeRows device],
     Some {| br_errors :=
               [ {| be_row := "Moose,A3,103"; be_rownum := 2;
                    be_error := "invalid device make" |} ];
             br_results := [] |})
  ∧ handleBulkMetadata animalFailsStore "jdoe" threeRows []
    = ([EvUpsertBulk "jdoe" threeRows device;
        EvUpsertBulk "jdoe" threeRows animal],
       Some (upsertBulk animalFailsStore "jdoe" threeRows animal)).
Proof.
  split.
  - destruct (phase_error_stops_later_phases deviceFailsStore "jdoe" threeRows [])
      as [Hdev _].
    rewrite Hdev by discriminate. vm_compute. reflexivity.
  - destruct (phase_error_stops_later_phases animalFailsStore "jdoe" threeRows [])
      as [_ Han].
    apply Han; [reflexivity|discriminate].
Defined.

(** ** The attachment phase *)

Section Attachment.
Context (st : Store).

(** The attachment phase returns once every link query it sent has
    settled; the errors it leaves are those it was given, the
    no-matching-collar errors pushed while the tasks started, and one per
    rejected task; the results are those it was given and one per
    fulfilled task, in the order of the rows. *)
Lemma handleCollarCritterLink_returns username critterResults collarResults
    (cs : list ICrittersWithDevices) bulkResp log :
  (∀ j c, cs !! j = Some c →
     is_Some (taskSettled log j (startTask st critterResults collarResults c))) →
  ∃ values,
    (handleCollarCritterLink st username critterResults collarResults cs
       bulkResp log).2
    = Some {|
        br_errors :=
          (br_errors bulkResp ++
             concat (startPushed <$>
                       (startTask st critterResults collarResults <$> cs))) ++
          omap (λ cv : ICrittersWithDevices * Settled,
                  match cv.2 with
                  | Rejected reason => Some (attachmentError st cv.1 reason)
                  | Fulfilled => None
                  end) (zip cs values);
        br_results :=
          br_results bulkResp ++
          omap (λ cv : ICrittersWithDevices * Settled,
                  match cv.2 with
                  | Fulfilled => Some (attachmentSuccess st cv.1)
                  | Rejected _ => None
                  end) (zip cs values) |}
    ∧ ∀ j c s, cs !! j = Some c →
        taskSettled log j (startTask st critterResults collarResults c) = Some s →
        (c, s) ∈ zip cs values.
Proof.
  intros Hall. unfold handleCollarCritterLink, allSettled. simpl.
  set (tasks := startTask st critterResults collarResults <$> cs).
  assert (Hlook : ∀ j t, tasks !! j = Some t →
            ∃ c, cs !! j = Some c ∧ t = startTask st critterResults collarResults c).
  { intros j t Hj. unfold tasks in Hj. rewrite list_lookup_fmap in Hj.
    destruct (cs !! j) as [c|]; [|done]. injection Hj as <-. eauto. }
  destruct (allSettledFrom_is_Some log 0 tasks) as [values Hvalues].
  { intros j t Hj. destruct (Hlook _ _ Hj) as (c & Hc & ->). simpl. eauto. }
  exists values. rewrite Hvalues. simpl. rewrite foldl_report. simpl.
  split; [done|].
  intros j c s Hc Hs.
  destruct (allSettledFrom_lookup _ _ _ _ Hvalues) as [_ Hv].
  apply list_elem_of_lookup. exists j.
  rewrite lookup_zip_with, Hc. simpl.
  rewrite (Hv j (startTask st critterResults collarResults c)).
  - simpl. by rewrite Hs.
  - unfold tasks. by rewrite list_lookup_fmap, Hc.
Qed.


End Attachment.


Section TwoRows.
Context (st : Store).




End TwoRows.



(** ** Matching a row to its upserted records *)

Section Matching.
Context (st : Store).




End Matching.



(** Why every upserted collar must carry a device id: matching stops at
    the first record without one, so the same two collar records give a
    rejected task in one order and the link query in the other. *)
Lemma link_depends_on_order_without_device_id :
  startTask demoStore [twinAnimal1] [collarWithoutDevice; twinCollar1]
    {| rowIndex := 0; cwd_row := twin1 |}
  = Immediate
      (Rejected "TypeError: Cannot read properties of undefined (reading 'toString')")
      []
  ∧ startTask demoStore [twinAnimal1] [twinCollar1; collarWithoutDevice]
      {| rowIndex := 0; cwd_row := twin1 |}
    = Pending (linkBody demoStore twinAnimal1 twinCollar1 twin1).
Proof. split; vm_compute; reflexivity. Qed.

(** ** A cell that is no date *)

(** C6 fails on the code: the per-field check records an error for text
    in a date column, but the conversion of the date columns that follows
    throws on the same cell when the text is no date; the exception ends
    the pass, and the callback receives no sheet at all, although the
    first row is valid and comes out when the second row is left out. *)
Theorem unparsable_date_drops_every_row :
  is_Some (checkGenericErrors demoStore {[ "capture_date" := CStr "not a date" ]}
             (code_header demoStore ++ extraCodeFields)
             (obtainColumnTypes demoStore) !! "capture_date")
  ∧ (parseXlsx demoStore "jdoe" badDateWorkbook).2 = []
  ∧ length (firstSheetRows (parseXlsx demoStore "jdoe" goodDateWorkbook).2) = 1.
Proof.
  split; [vm_compute; eauto|]. split; vm_compute; reflexivity.
Qed.

(** ** The scenarios on a parsed workbook *)

(** Scenario A and Scenario B through [parseXlsx]: the second row of the
    demo workbook has neither species nor device id and comes out with the
    single error [missing_data]; the first row puts device 101 on an
    animal on 2020-03-01, inside the device's deployment, and comes out
    with the single error on [device_id]; neither row succeeds, the third
    does. *)
Example scenarios_through_parseXlsx :
  (λ rr, (map_to_list (errors rr), success rr))
    <$> firstSheetRows (parseXlsx demoStore "jdoe" demoWorkbook).2
  = [ ([("device_id", deviceAssignedError)], false);
      ([("missing_data", missingDataError)], false);
      ([], true) ].
Proof. vm_compute. reflexivity. Qed.

(** * Further properties of the module *)

(** ** Column kinds and the per-field check *)

Section ColumnTypes.
Context (st : Store).

Lemma foldl_insert_last (l : list (string * string)) (c : string) :
  foldl (λ (o : gmap string string) keyval, <[keyval.1 := keyval.2]> o) ∅ l !! c
  = snd <$> last (filter (λ kv : string * string, kv.1 = c) l).
Proof.
  induction l as [|[k v] l IH] using rev_ind; [done|].
  rewrite foldl_snoc, filter_app. simpl.
  destruct (decide (k = c)) as [->|Hne].
  - rewrite lookup_insert_eq, filter_cons_True by done.
    by rewrite filter_nil, last_snoc.
  - rewrite lookup_insert_ne by done. rewrite filter_cons_False by done.
    by rewrite filter_nil, app_nil_r.
Qed.

(** X1: [obtainColumnTypes] gives a column the kind of the last data type
    the schema query lists for its name, and every kind it gives is one of
    number, date, boolean and string. *)
Theorem obtainColumnTypes_last_wins (c : string) :
  obtainColumnTypes st !! c
  = columnKind <$>
      (snd <$> last (filter (λ kv : string * string, kv.1 = c)
                            (information_schema_columns st)))
  ∧ ∀ kind, obtainColumnTypes st !! c = Some kind →
      kind ∈ ["number"; "date"; "boolean"; "string"].
Proof.
  assert (Hlook : obtainColumnTypes st !! c
    = columnKind <$>
        (snd <$> last (filter (λ kv : string * string, kv.1 = c)
                              (information_schema_columns st)))).
  { unfold obtainColumnTypes. by rewrite lookup_fmap, foldl_insert_last. }
  split; [done|]. intros kind. rewrite Hlook.
  destruct (snd <$> last _) as [t|]; [|done]. simpl. intros [= <-].
  unfold columnKind.
  destruct (bool_decide _); [set_solver|].
  destruct (bool_decide _); [set_solver|].
  destruct (String.eqb _ _); set_solver.
Qed.

End ColumnTypes.

Section PerCell.
Context (st : Store).

Lemma checkGenericErrors_dom (r : Row)
    (codeFields : list string) (columnTypes : gmap string string) :
  dom (checkGenericErrors st r codeFields columnTypes) ⊆ dom r
  ∧ checkGenericErrors st ∅ codeFields columnTypes = ∅.
Proof.
  split.
  - intros k. rewrite !elem_of_dom, checkGenericErrors_lookup.
    destruct (r !! k); [eauto|]. simpl. by intros [? ?].
  - apply map_eq. intros k. by rewrite checkGenericErrors_lookup, !lookup_empty.
Qed.

(** X2: the per-field check never reports a field that is absent from the
    row: the keys of its errors are keys of the row, and the empty row has
    no error. *)
Theorem checkGenericErrors_only_present_fields (r : Row)
    (codeFields : list string) (columnTypes : gmap string string) :
  dom (checkGenericErrors st r codeFields columnTypes) ⊆ dom r
  ∧ checkGenericErrors st ∅ codeFields columnTypes = ∅.
Proof. apply checkGenericErrors_dom. Qed.

(** X3: the per-field check works cell by cell: setting one cell of a row
    sets or clears the error under that cell's key, as the check of that
    cell alone decides, and leaves the errors under all other keys as they
    were. *)
Theorem checkGenericErrors_insert (r : Row) (codeFields : list string)
    (columnTypes : gmap string string) (k : string) (v : Cell) :
  checkGenericErrors st (<[k := v]> r) codeFields columnTypes
  = match cellError st codeFields columnTypes k v with
    | Some e => <[k := e]> (checkGenericErrors st r codeFields columnTypes)
    | None => delete k (checkGenericErrors st r codeFields columnTypes)
    end.
Proof.
  apply map_eq. intros k'. rewrite checkGenericErrors_lookup.
  destruct (decide (k = k')) as [<-|Hne].
  - rewrite lookup_insert_eq. simpl.
    destruct (cellError st codeFields columnTypes k v).
    + by rewrite lookup_insert_eq.
    + by rewrite lookup_delete_eq.
  - rewrite lookup_insert_ne by done.
    destruct (cellError st codeFields columnTypes k v).
    + by rewrite lookup_insert_ne, checkGenericErrors_lookup.
    + by rewrite lookup_delete_ne, checkGenericErrors_lookup.
Qed.

End PerCell.


(** ** The check of a device-metadata row *)

Section RowCheck.
Context (st : Store).

(** X5: the round trips of the check of one row: none when a required
    field is missing; otherwise the device history, then the animal
    history if the row names an animal, then the uniqueness look-up, which
    is made whether or not the device was found assigned. *)
Theorem checkAnimalDeviceErrorsAndWarns_round_trips
    (rowres : ParsedXLSXRowResult) (user : string) :
  (checkAnimalDeviceErrorsAndWarns st rowres user).1
  = if requireFields (row rowres) then
      EvDeviceHistory (row rowres !! "device_id")
      :: (if truthy (row rowres !! "critter_id")
          then [EvAnimalHistory user (row rowres !! "critter_id")] else [])
      ++ [EvIsNewAnimal (row rowres)]
    else [].
Proof.
  unfold checkAnimalDeviceErrorsAndWarns, verifyAssignment, verifyUniqueAnimals.
  destruct (requireFields (row rowres)); simpl; [|done].
  destruct (existsb _ (get_device_assignment_history _ _));
    [|destruct (negb _)];
    (destruct (truthy (row rowres !! "critter_id")); simpl;
     [destruct (existsb _ (get_animal_collar_assignment_history _ _ _))|]);
    simpl; by destruct (is_new_animal st (row rowres)).
Qed.

(** X6: the check of a device-metadata row always returns; its errors
    are none, [missing_data] alone or [device_id] alone; it gives at most
    three warnings; and a row that carries the previous-deployments warning
    carries no error from this check. *)
Theorem checkAnimalDeviceErrorsAndWarns_error_keys
    (rowres : ParsedXLSXRowResult) (user : string) :
  ∃ t ew, checkAnimalDeviceErrorsAndWarns st rowres user = (t, Returned ew)
    ∧ (ew_errors ew = ∅
       ∨ ew_errors ew = {[ "missing_data" := missingDataError ]}
       ∨ ew_errors ew = {[ "device_id" := deviceAssignedError ]})
    ∧ length (ew_warnings ew) ≤ 3
    ∧ (previousDeploymentsWarning st (row rowres) ∈ ew_warnings ew →
       ew_errors ew = ∅).
Proof.
  destruct (requireFields (row rowres)) eqn:Hreq.
  - destruct (checkAnimalDeviceErrorsAndWarns_required st rowres user Hreq)
      as (t & t' & ew & ew' & Hva & Hc & _ & Herr & Hwarn).
    destruct (verifyAssignment_returns st (row rowres) user)
      as (t0 & ew0 & Hva0 & _ & Herr0 & Hwarn0).
    rewrite Hva in Hva0. injection Hva0 as _ <-.
    exists t', ew'. split; [done|]. rewrite Herr, Hwarn, Herr0, Hwarn0.
    destruct (existsb _ (get_device_assignment_history _ _)).
    + split; [auto|]. split.
      * rewrite !length_app. destruct (_ && _), (is_new_animal _ _); simpl; lia.
      * intros Hin. exfalso.
        apply elem_of_app in Hin as [Hin|Hin].
        -- simpl in Hin. destruct (_ && _); [|by apply elem_of_nil in Hin].
           by apply list_elem_of_singleton in Hin.
        -- destruct (is_new_animal _ _); [|by apply elem_of_nil in Hin].
           by apply list_elem_of_singleton in Hin.
    + split; [auto|]. split; [|done].
      rewrite !length_app.
      destruct (negb _), (_ && _), (is_new_animal _ _); simpl; lia.
  - exists [], {| ew_errors := {[ "missing_data" := missingDataError ]};
                  ew_warnings := [] |}.
    unfold checkAnimalDeviceErrorsAndWarns. rewrite Hreq. simpl.
    split; [done|]. split; [auto|]. split; [lia|].
    intros Hin. by apply elem_of_nil in Hin.
Qed.

(** X7: with both required fields present, the new-animal warning is
    given exactly when [is_new_animal] answers true, it is then the last
    warning, and the answer never changes the errors, which the device
    history alone decides. *)
Theorem new_animal_warning_iff_is_new (rowres : ParsedXLSXRowResult)
    (user : string) :
  requireFields (row rowres) = true →
  ∃ t ew, checkAnimalDeviceErrorsAndWarns st rowres user = (t, Returned ew)
    ∧ (newAnimalWarning ∈ ew_warnings ew ↔ is_new_animal st (row rowres) = true)
    ∧ (is_new_animal st (row rowres) = true →
       last (ew_warnings ew) = Some newAnimalWarning)
    ∧ ew_errors ew
      = (if existsb (overlapsRow st (row rowres))
              (get_device_assignment_history st (row rowres !! "device_id"))
         then {[ "device_id" := deviceAssignedError ]} else ∅).
Proof.
  intros Hreq.
  destruct (checkAnimalDeviceErrorsAndWarns_required st rowres user Hreq)
    as (t & t' & ew & ew' & Hva & Hc & _ & Herr & Hwarn).
  destruct (verifyAssignment_returns st (row rowres) user)
    as (t0 & ew0 & Hva0 & _ & Herr0 & Hwarn0).
  rewrite Hva in Hva0. injection Hva0 as _ <-.
  exists t', ew'. split; [done|]. rewrite Herr, Hwarn, Herr0.
  split; [|split; [|done]].
  - destruct (is_new_animal st (row rowres)).
    + split; [done|]. intros _. apply elem_of_app. right. apply list_elem_of_here.
    + rewrite app_nil_r, Hwarn0. split; [|done]. intros Hin. exfalso.
      apply elem_of_app in Hin as [Hin|Hin].
      * destruct (existsb _ (get_device_assignment_history _ _));
          [by apply elem_of_nil in Hin|].
        destruct (negb _); [|by apply elem_of_nil in Hin].
        by apply list_elem_of_singleton in Hin.
      * destruct (_ && _); [|by apply elem_of_nil in Hin].
        by apply list_elem_of_singleton in Hin.
  - intros ->. by rewrite last_snoc.
Qed.

(** X4: the check of a device-metadata row always returns, and it
    returns the error [missing_data] exactly when the species or the
    device id of the row is falsy: absent, but also an empty text, the
    number 0 or [false]. *)
Theorem missing_data_iff_falsy_required_field (rowres : ParsedXLSXRowResult)
    (user : string) :
  ∃ t ew, checkAnimalDeviceErrorsAndWarns st rowres user = (t, Returned ew)
    ∧ (is_Some (ew_errors ew !! "missing_data")
       ↔ truthy (row rowres !! "species") = false
         ∨ truthy (row rowres !! "device_id") = false).
Proof.
  destruct (requireFields (row rowres)) eqn:Hreq.
  - destruct (checkAnimalDeviceErrorsAndWarns_required st rowres user Hreq)
      as (t & t' & ew & ew' & Hva & Hc & _ & Herr & _).
    destruct (verifyAssignment_returns st (row rowres) user)
      as (t0 & ew0 & Hva0 & _ & Herr0 & _).
    rewrite Hva in Hva0. injection Hva0 as _ <-.
    exists t', ew'. split; [done|]. rewrite Herr, Herr0.
    unfold requireFields in Hreq.
    destruct (truthy (row rowres !! "species")); [|done].
    destruct (truthy (row rowres !! "device_id")); [|done].
    split.
    + destruct (existsb _ _).
      * rewrite lookup_singleton_ne by done. by intros [? ?].
      * rewrite lookup_empty. by intros [? ?].
    + by intros [?|?].
  - eexists _, _. unfold checkAnimalDeviceErrorsAndWarns. rewrite Hreq. simpl.
    split; [reflexivity|]. simpl. rewrite lookup_singleton_eq.
    split; [|eauto]. intros _. unfold requireFields in Hreq.
    destruct (truthy (row rowres !! "species")); [|by left].
    destruct (truthy (row rowres !! "device_id")); [done|by right].
Qed.

End RowCheck.

(** ** Headers and the object of a row *)

Section Headers.
Context (st : Store).

Lemma rowWithHeader_snoc (hs : list string) (h : string) (values : list Value) :
  rowWithHeader (hs ++ [h]) values
  = <[h := mjoin (values !! length hs)]> (rowWithHeader hs values).
Proof.
  unfold rowWithHeader. rewrite imap_app, foldl_app. simpl.
  by rewrite Nat.add_0_r.
Qed.

(** X9: with distinct headers, the object built for a row holds, under
    the header of column [i], the value of the row's cell [i]; a header
    past the end of a short row is present with the value [undefined]; the
    keys of the object are exactly the headers. *)
Theorem rowWithHeader_lookup (hs : list string) (values : list Value)
    (i : nat) (h : string) :
  NoDup hs → hs !! i = Some h →
  rowWithHeader hs values !! h = Some (mjoin (values !! i))
  ∧ (length values ≤ i → rowWithHeader hs values !! h = Some None)
  ∧ dom (rowWithHeader hs values) = list_to_set hs.
Proof.
  intros Hnd Hi.
  assert (Hdom : ∀ hs', dom (rowWithHeader hs' values) = list_to_set hs').
  { induction hs' as [|h' hs' IH] using rev_ind.
    - unfold rowWithHeader. simpl. apply dom_empty_L.
    - rewrite rowWithHeader_snoc, dom_insert_L, IH, list_to_set_app_L.
      simpl. by rewrite union_empty_r_L, union_comm_L. }
  assert (Hlook : rowWithHeader hs values !! h = Some (mjoin (values !! i))).
  { revert i Hi. induction hs as [|h' hs IH] using rev_ind; intros i Hi; [done|].
    rewrite rowWithHeader_snoc.
    apply NoDup_app in Hnd as (Hnd & Hnot & _).
    apply lookup_app_Some in Hi as [Hi|[Hlen Hi]].
    - rewrite lookup_insert_ne.
      + by apply IH.
      + intros ->. eapply Hnot; [|apply list_elem_of_here].
        by eapply list_elem_of_lookup_2.
    - destruct (i - length hs) as [|n] eqn:Hn; [|done].
      injection Hi as <-. rewrite lookup_insert_eq.
      by replace (length hs) with i by lia. }
  split; [done|]. split; [|done].
  intros Hshort. rewrite Hlook. by rewrite (lookup_ge_None_2 values i).
Qed.

Lemma headersMatch_lookup (required hs : list string) :
  headersMatch required hs = true
  ↔ ∀ i v, required !! i = Some v → hs !! i = Some v.
Proof.
  unfold headersMatch. rewrite forallb_forall. split.
  - intros Hall i v Hi.
    specialize (Hall (i, v)). simpl in Hall.
    eapply bool_decide_eq_true_1. apply Hall, list_elem_of_In.
    by apply (elem_of_lookup_imap_2 pair).
  - intros Hall [i v] Hin. apply bool_decide_eq_true_2. simpl.
    apply list_elem_of_In, elem_of_lookup_imap in Hin as (i' & v' & [= -> ->] & Hi).
    by apply Hall.
Qed.

Lemma headersMatch_prefix (required hs : list string) :
  headersMatch required hs = true ↔ required `prefix_of` hs.
Proof.
  rewrite headersMatch_lookup. split.
  - revert hs. induction required as [|v required IH]; intros hs Hall.
    + apply prefix_nil.
    + destruct hs as [|h hs].
      * by specialize (Hall 0 v eq_refl).
      * pose proof (Hall 0 v eq_refl) as [= ->].
        apply prefix_cons, IH. intros i v' Hi. by apply (Hall (S i)).
  - intros Hpre i v Hi. by eapply prefix_lookup_Some.
Qed.

(** X8: the header check passes exactly when the headers of the sheet
    begin with the required headers, in order; further columns after them
    are accepted. *)
Theorem headersMatch_iff_prefix (required hs : list string) :
  headersMatch required hs = true ↔ required `prefix_of` hs.
Proof. apply headersMatch_prefix. Qed.

End Headers.

(** ** The conversion of the date columns *)

Section Dates.
Context (st : Store).

Lemma convertDates_fold (columnTypes : gmap string string)
    (l : list (string * Cell)) (r0 : Row) :
  NoDup l.*1 →
  match
    foldl (λ (acc : Outcome Row) (kv : string * Cell),
             match acc with
             | Thrown e => Thrown e
             | Returned r' =>
                 if bool_decide (columnTypes !! kv.1 = Some "date") then
                   match newDate st kv.2 with
                   | Some t => Returned (<[kv.1 := CStr (toISODate st t)]> r')
                   | None => Thrown (RangeError "Invalid time value")
                   end
                 else Returned r'
             end) (Returned r0) l
  with
  | Returned r' =>
      ∀ k, match (list_to_map l : Row) !! k with
           | Some v =>
               if bool_decide (columnTypes !! k = Some "date")
               then ∃ t, newDate st v = Some t
                      ∧ r' !! k = Some (CStr (toISODate st t))
               else r' !! k = r0 !! k
           | None => r' !! k = r0 !! k
           end
  | Thrown e =>
      e = RangeError "Invalid time value"
      ∧ ∃ k v, (list_to_map l : Row) !! k = Some v
          ∧ columnTypes !! k = Some "date" ∧ newDate st v = None
  end.
Proof.
  set (step := λ (acc : Outcome Row) (kv : string * Cell), _).
  assert (Hth : ∀ l' e, foldl step (Thrown e) l' = Thrown e).
  { induction l' as [|? ? IHl']; intros e; simpl; [done|apply IHl']. }
  revert r0. induction l as [|[k0 v0] l IH]; intros r0 Hnd.
  - simpl. intros k. by rewrite lookup_empty.
  - apply NoDup_cons in Hnd as [Hk0 Hnd].
    pose proof (not_elem_of_list_to_map_1 (M:=gmap string) _ _ Hk0) as Hnone.
    simpl in Hnone.
    change (foldl step (Returned r0) ((k0, v0) :: l))
      with (foldl step (step (Returned r0) (k0, v0)) l).
    change (list_to_map ((k0, v0) :: l) : Row)
      with (<[k0 := v0]> (list_to_map l : Row)).
    unfold step at 2. simpl fst. simpl snd.
    destruct (bool_decide (columnTypes !! k0 = Some "date")) eqn:Hdate.
    + apply bool_decide_eq_true_1 in Hdate.
      destruct (newDate st v0) as [t|] eqn:Hnew.
      * specialize (IH (<[k0 := CStr (toISODate st t)]> r0) Hnd).
        destruct (foldl step _ l) as [r'|e].
        -- intros k. specialize (IH k). destruct (decide (k0 = k)) as [<-|Hne].
           ++ rewrite lookup_insert_eq, bool_decide_eq_true_2 by done.
              rewrite Hnone, lookup_insert_eq in IH. eauto.
           ++ rewrite lookup_insert_ne by done.
              rewrite lookup_insert_ne in IH by done. done.
        -- destruct IH as (-> & k & v & Hk & Hd & Hn). split; [done|].
           exists k, v. rewrite lookup_insert_ne; [done|]. congruence.
      * rewrite Hth. split; [done|]. exists k0, v0.
        by rewrite lookup_insert_eq.
    + apply bool_decide_eq_false_1 in Hdate.
      specialize (IH r0 Hnd). destruct (foldl step _ l) as [r'|e].
      * intros k. specialize (IH k). destruct (decide (k0 = k)) as [<-|Hne].
        -- rewrite lookup_insert_eq, bool_decide_eq_false_2 by done.
           by rewrite Hnone in IH.
        -- by rewrite lookup_insert_ne.
      * destruct IH as (-> & k & v & Hk & Hd & Hn). split; [done|].
        exists k, v. rewrite lookup_insert_ne; [done|]. congruence.
Qed.

Lemma convertDates_Returned (columnTypes : gmap string string)
    (r r' : Row) :
  convertDates st columnTypes r = Returned r' →
  dom r' = dom r
  ∧ ∀ k v, r !! k = Some v →
      if bool_decide (columnTypes !! k = Some "date")
      then ∃ t, newDate st v = Some t ∧ r' !! k = Some (CStr (toISODate st t))
      else r' !! k = Some v.
Proof.
  intros Hret. unfold convertDates in Hret.
  pose proof (convertDates_fold columnTypes (map_to_list r) r
                (NoDup_fst_map_to_list r)) as Hfold.
  rewrite Hret in Hfold. rewrite list_to_map_to_list in Hfold. split.
  - apply set_eq. intros k. rewrite !elem_of_dom. specialize (Hfold k).
    destruct (r !! k) as [v|] eqn:Hk.
    + destruct (bool_decide _).
      * destruct Hfold as (t & _ & ->). split; eauto.
      * rewrite Hfold. done.
    + by rewrite Hfold.
  - intros k v Hk. specialize (Hfold k). rewrite Hk in Hfold.
    by destruct (bool_decide _).
Qed.

(** X10: when the date conversion returns, the row keeps its keys; every
    cell of a date column has become the text of its ISO day, and every
    other cell is unchanged. *)
Theorem convertDates_rewrites_date_columns (columnTypes : gmap string string)
    (r r' : Row) :
  convertDates st columnTypes r = Returned r' →
  dom r' = dom r
  ∧ ∀ k v, r !! k = Some v →
      if bool_decide (columnTypes !! k = Some "date")
      then ∃ t, newDate st v = Some t ∧ r' !! k = Some (CStr (toISODate st t))
      else r' !! k = Some v.
Proof. apply convertDates_Returned. Qed.

(** X11: the date conversion throws, and then a RangeError, exactly when
    some cell of a date column is no valid date; it returns exactly when
    every cell of a date column is one. *)
Theorem convertDates_throws_iff_invalid_date (columnTypes : gmap string string)
    (r : Row) :
  (convertDates st columnTypes r = Thrown (RangeError "Invalid time value")
   ↔ ∃ k v, r !! k = Some v ∧ columnTypes !! k = Some "date"
        ∧ newDate st v = None)
  ∧ ((∃ r', convertDates st columnTypes r = Returned r')
     ↔ ∀ k v, r !! k = Some v → columnTypes !! k = Some "date" →
         is_Some (newDate st v)).
Proof.
  pose proof (convertDates_fold columnTypes (map_to_list r) r
                (NoDup_fst_map_to_list r)) as Hfold.
  rewrite list_to_map_to_list in Hfold. fold (convertDates st columnTypes r) in Hfold.
  destruct (convertDates st columnTypes r) as [r'|e].
  - assert (Hvalid : ∀ k v, r !! k = Some v → columnTypes !! k = Some "date" →
              is_Some (newDate st v)).
    { intros k v Hk Hd. specialize (Hfold k). rewrite Hk in Hfold.
      rewrite bool_decide_eq_true_2 in Hfold by done.
      destruct Hfold as (t & -> & _). eauto. }
    split; split; try done; eauto.
    intros (k & v & Hk & Hd & Hn). destruct (Hvalid k v Hk Hd) as [t Ht].
    congruence.
  - destruct Hfold as (-> & k & v & Hk & Hd & Hn).
    split; split; try done; eauto 6.
    + by intros [r' ?].
    + intros Hvalid. destruct (Hvalid k v Hk Hd) as [t Ht]. congruence.
Qed.

End Dates.

(** ** Sheets and the reply of the XLSX import *)

Section Sheets.
Context (st : Store).

Lemma emapM_Returned_lookup {A B} (f : A → Eff B) (l : list A) t (bs : list B) :
  emapM f l = (t, Returned bs) →
  length bs = length l
  ∧ ∀ i a, l !! i = Some a → ∃ b t', bs !! i = Some b ∧ f a = (t', Returned b).
Proof.
  intros Hm. apply emapM_Returned in Hm. split.
  - symmetry. by eapply Forall2_length.
  - intros i a Hi.
    destruct (Forall2_lookup_l _ _ _ _ _ Hm Hi) as (b & Hb & t' & Hf). eauto.
Qed.

Lemma emapM_silent {A B} (f : A → Eff B) (l : list A) :
  (∀ a, (f a).1 = []) → (emapM f l).1 = [].
Proof.
  intros Hf. induction l as [|a l IH]; simpl; [done|].
  unfold ebind at 1. specialize (Hf a).
  destruct (f a) as [ta [b|e]]; simpl in Hf; subst ta; [|done].
  unfold ebind. destruct (emapM f l) as [tl [bs|e]]; simpl in *; by subst tl.
Qed.

Lemma parseRow_row user name codeFields hs values t rr :
  parseRow st user name codeFields hs values = (t, Returned rr) →
  convertDates st (obtainColumnTypes st)
    (removeEmptyProps (rowWithHeader hs values)) = Returned (row rr).
Proof.
  unfold parseRow, elift.
  destruct (convertDates _ _ _) as [crow'|e]; simpl; [|done].
  destruct (String.eqb name deviceMetadataSheetName).
  - destruct (checkAnimalDeviceErrorsAndWarns _ _ _) as [tc [ew|e]]; simpl; [|done].
    by intros [= <- <-].
  - simpl. by intros [= <- <-].
Qed.

Lemma parseRow_other_sheet user name codeFields hs values :
  String.eqb name deviceMetadataSheetName = false →
  (parseRow st user name codeFields hs values).1 = [].
Proof.
  intros Hname. unfold parseRow, elift. rewrite Hname.
  by destruct (convertDates _ _ _).
Qed.

(** X12: when [parseSheet] returns, the sheet exists, its headers begin
    with the required headers, the headers reported are the mapped headers
    of the sheet, and there is one row result per data row in the order of
    the sheet, the row of the i-th result being the cleaned and converted
    i-th data row. *)
Theorem parseSheet_keeps_row_order (user : string) (wb : Workbook)
    (codeFields : list string) (req : SheetRequirements) t
    (sr : ParsedXLSXSheetResult) :
  parseSheet st user wb codeFields req = (t, Returned sr) →
  ∃ sheet,
    getWorksheet wb (sheetName req) = Some sheet
    ∧ requiredHeaders req `prefix_of` omap id (header_row sheet)
    ∧ headers sr = mapXlsxHeader st <$> omap id (header_row sheet)
    ∧ length (rows sr) = length (data_rows sheet)
    ∧ ∀ i values, data_rows sheet !! i = Some values →
        ∃ rr, rows sr !! i = Some rr
          ∧ convertDates st (obtainColumnTypes st)
              (removeEmptyProps (rowWithHeader (headers sr) values))
            = Returned (row rr).
Proof.
  unfold parseSheet.
  destruct (getWorksheet wb (sheetName req)) as [sheet|]; [|done].
  destruct (headersMatch _ _) eqn:Hhm; [|done]. simpl.
  destruct (lastRow sheet); [|done].
  unfold ebind.
  destruct (emapM _ _) as [tm [rs|e]] eqn:Hm; simpl; [|done].
  intros [= <- <-]. simpl. exists sheet.
  apply emapM_Returned_lookup in Hm as [Hlen Hrows].
  split; [done|]. split; [by apply headersMatch_prefix|].
  split; [done|]. split; [done|].
  intros i values Hi. destruct (Hrows i values Hi) as (rr & t' & Hrr & Hrow).
  exists rr. split; [done|]. by eapply parseRow_row.
Qed.

(** X14: a workbook without a Device Metadata sheet, or whose Device
    Metadata headers do not begin with the template headers, is answered
    with status 500 and the text of a failed parse, without any round trip
    and without any row diagnostics. *)
Theorem importXlsx_rejects_bad_device_sheet (user : string) (wb : Workbook) :
  getWorksheet wb deviceMetadataSheetName = None
  ∨ (∃ sheet, getWorksheet wb deviceMetadataSheetName = Some sheet
       ∧ ¬ metadataRequiredHeaders `prefix_of` omap id (header_row sheet)) →
  importXlsx st user wb = ([], SendStatus 500 "Failed parsing the XLSX file.").
Proof.
  intros Hbad. unfold importXlsx, parseXlsx, sheetRequirements.
  cbn [parseSheets].
  assert (Hs : ∃ e, parseSheet st user wb (code_header st ++ extraCodeFields)
            {| sheetName := deviceMetadataSheetName;
               requiredHeaders := metadataRequiredHeaders |} = ([], Thrown e)).
  { unfold parseSheet. cbn [sheetName requiredHeaders].
    destruct Hbad as [->|(sheet & -> & Hnot)]; [by eexists|].
    destruct (headersMatch _ _) eqn:Hhm.
    - by apply headersMatch_prefix in Hhm.
    - by eexists. }
  destruct Hs as [e ->]. done.
Qed.

(** X15: when the Device Metadata sheet parses, [importXlsx] sends the
    parsed sheets: both when the Telemetry sheet parses too, and the
    Device Metadata result alone when the Telemetry sheet is missing or
    fails. *)
Theorem importXlsx_sends_parsed_sheets (user : string) (wb : Workbook) t1 sr1 :
  parseSheet st user wb (code_header st ++ extraCodeFields)
    {| sheetName := deviceMetadataSheetName;
       requiredHeaders := metadataRequiredHeaders |} = (t1, Returned sr1) →
  match parseSheet st user wb (code_header st ++ extraCodeFields)
          {| sheetName := telemetrySheetName;
             requiredHeaders := telemetryRequiredHeaders |} with
  | (t2, Returned sr2) => importXlsx st user wb = (t1 ++ t2, SendSheets [sr1; sr2])
  | (t2, Thrown _) => importXlsx st user wb = (t1 ++ t2, SendSheets [sr1])
  end.
Proof.
  intros Hs1. unfold importXlsx, parseXlsx, sheetRequirements.
  cbn [parseSheets]. rewrite Hs1.
  destruct (parseSheet st user wb _ {| sheetName := telemetrySheetName;
              requiredHeaders := _ |}) as [t2 [sr2|e]]; simpl;
    by rewrite ?app_nil_r.
Qed.

(** X13: parsing the Telemetry sheet makes no round trip, and its rows
    carry no warning and only errors under keys present in the row: the
    required-field, overlap and uniqueness checks are for the Device
    Metadata sheet only. *)
Theorem telemetry_rows_get_no_cross_row_checks (user : string) (wb : Workbook)
    (codeFields : list string) :
  let res := parseSheet st user wb codeFields
               {| sheetName := telemetrySheetName;
                  requiredHeaders := telemetryRequiredHeaders |} in
  res.1 = []
  ∧ ∀ sr rr, res.2 = Returned sr → rr ∈ rows sr →
      warnings rr = [] ∧ dom (errors rr) ⊆ dom (row rr).
Proof.
  intros res. unfold res. split.
  - unfold parseSheet, getWorksheet. cbn [sheetName requiredHeaders].
    destruct (List.find _ wb) as [sheet|] eqn:Hfind; [|done].
    apply find_some in Hfind as [_ Hname]. apply String.eqb_eq in Hname.
    destruct (negb _); [done|]. destruct (lastRow sheet); [|done].
    unfold ebind.
    pose proof (emapM_silent
      (parseRow st user (sheet_name sheet) codeFields
         (mapXlsxHeader st <$> omap id (header_row sheet)))
      (data_rows sheet)) as Hsilent.
    destruct (emapM _ _) as [tm [rs|e]]; simpl in *.
    + rewrite app_nil_r. apply Hsilent. intros a.
      apply parseRow_other_sheet. by rewrite Hname.
    + apply Hsilent. intros a. apply parseRow_other_sheet. by rewrite Hname.
  - intros sr rr Hret Hrr.
    destruct (parseSheet _ _ _ _ _) as [t o] eqn:Hs. simpl in Hret. subst o.
    destruct (parseSheet_rows _ _ _ _ _ _ _ _ Hs Hrr)
      as (name & hs & values & t' & Hname & Hrow).
    apply String.eqb_eq in Hname. simpl in Hname. subst name.
    pose proof (parseRow_row _ _ _ _ _ _ _ Hrow) as Hconv.
    apply parseRow_Returned in Hrow as [_ Hdev]. simpl in Hdev.
    destruct Hdev as (_ & Herr & Hwarn). split; [done|].
    apply convertDates_Returned in Hconv as [-> _].
    rewrite Herr. apply checkGenericErrors_dom.
Qed.

End Sheets.

(** ** Column names and the template *)

Lemma fromCharCode_small (n : N) : (n < 65536)%N → fromCharCode n = n.
Proof. intros H. unfold fromCharCode. by apply N.mod_small. Qed.

Lemma div_mod_26 (idx : N) :
  ∃ q m, (idx / 26 = q ∧ idx mod 26 = m ∧ idx = 26 * q + m ∧ m < 26)%N.
Proof.
  exists (idx / 26)%N, (idx mod 26)%N. repeat split.
  - by apply N.div_mod.
  - by apply N.mod_lt.
Qed.

Lemma isCapital_true (c : N) : (65 <= c <= 90)%N → isCapital c = true.
Proof.
  intros [? ?]. unfold isCapital. apply andb_true_intro.
  split; by apply N.leb_le.
Qed.

(** The two shapes of a column name, as long as no code unit wraps. *)
Lemma computeXLSXCol_cases (idx : N) :
  (idx < 1702272)%N →
  computeXLSXCol idx
  = if (idx <? 26)%N then [(65 + idx)%N]
    else [(64 + idx / 26)%N; (65 + idx mod 26)%N].
Proof.
  intros Hlt. unfold computeXLSXCol.
  destruct (div_mod_26 idx) as (q & m & -> & -> & Hidx & Hm).
  replace (idx - q * 26)%N with m by lia.
  destruct (N.ltb_spec idx 26) as [Hs|Hs].
  - assert (q = 0%N) as -> by lia. simpl.
    rewrite fromCharCode_small by lia. f_equal. lia.
  - destruct (N.ltb_spec 0 q) as [_|?]; [|lia]. simpl.
    rewrite !fromCharCode_small by lia. f_equal. lia.
Qed.

Lemma computeXLSXCol_columnIndex (idx : N) :
  (idx < 702)%N →
  Forall (λ c, isCapital c = true) (computeXLSXCol idx)
  ∧ columnIndex (computeXLSXCol idx) = Some idx.
Proof.
  intros Hlt. rewrite computeXLSXCol_cases by lia.
  destruct (div_mod_26 idx) as (q & m & -> & -> & Hidx & Hm).
  destruct (N.ltb_spec idx 26) as [Hs|Hs].
  - assert (Hc : isCapital (65 + idx) = true) by (apply isCapital_true; lia).
    split; [by repeat constructor|]. simpl. rewrite Hc. f_equal. lia.
  - assert (Hc1 : isCapital (64 + q) = true) by (apply isCapital_true; lia).
    assert (Hc2 : isCapital (65 + m) = true) by (apply isCapital_true; lia).
    split; [by repeat constructor|]. simpl. rewrite Hc1, Hc2. simpl.
    f_equal. lia.
Qed.

(** X27: for an index below 702, [computeXLSXCol] gives one or two
    capital letters, and they are the name of the worksheet column of that
    index: reading the name back gives the index, so distinct indices get
    distinct columns. *)
Theorem computeXLSXCol_names_column (idx : N) :
  (idx < 702)%N →
  Forall (λ c, isCapital c = true) (computeXLSXCol idx)
  ∧ columnIndex (computeXLSXCol idx) = Some idx.
Proof. apply computeXLSXCol_columnIndex. Qed.




(** ** The CSV import *)

Lemma filter_fmap_none {A B} (f : A → B) (l : list A) (P : B → Prop)
    `{∀ x, Decision (P x)} :
  (∀ a, a ∈ l → ¬ P (f a)) → filter P (f <$> l) = [].
Proof.
  intros HP. induction l as [|a l IH]; [done|].
  rewrite fmap_cons, filter_cons_False.
  - apply IH. intros a' Ha'. apply HP. by apply list_elem_of_further.
  - apply HP. apply list_elem_of_here.
Qed.

Section Csv.
Context (st : Store).
Context (isAnimalAndDevice isHistoricalTelemtry isAnimal isCollar : Row → bool).
Context (upsertPointTelemetry : string → list Row → IBulkResponse).

Lemma parseCSV_filters (rs : list (gmap string Value)) :
  let crows := removeEmptyProps <$> rs in
  let ret := parseCSV isAnimalAndDevice isHistoricalTelemtry isAnimal isCollar rs in
  both ret = filter (λ r, isAnimalAndDevice r = true) crows
  ∧ points ret
    = filter (λ r, isAnimalAndDevice r = false
                   ∧ isHistoricalTelemtry r = true) crows
  ∧ animals ret
    = filter (λ r, isAnimalAndDevice r = false
                   ∧ isHistoricalTelemtry r = false
                   ∧ isAnimal r = true) crows
  ∧ collars ret
    = filter (λ r, isAnimalAndDevice r = false
                   ∧ isHistoricalTelemtry r = false
                   ∧ isAnimal r = false ∧ isCollar r = true) crows.
Proof.
  induction rs as [|r rs IH] using rev_ind; [done|].
  cbn zeta in *. destruct IH as (Hb & Hp & Ha & Hc).
  unfold parseCSV in *. rewrite foldl_snoc, fmap_app, !filter_app.
  rewrite <- Hb, <- Hp, <- Ha, <- Hc. clear Hb Hp Ha Hc. simpl.
  unfold onData.
  destruct (isAnimalAndDevice (removeEmptyProps r)) eqn:H1; simpl.
  { rewrite filter_cons_True by done.
    rewrite !filter_cons_False by (intros [? ?]; congruence).
    by rewrite !filter_nil, !app_nil_r. }
  rewrite (filter_cons_False (λ r, isAnimalAndDevice r = true)) by congruence.
  destruct (isHistoricalTelemtry (removeEmptyProps r)) eqn:H2; simpl.
  { rewrite filter_cons_True by done.
    rewrite !filter_cons_False by (intros (? & ? & ?); congruence).
    by rewrite !filter_nil, !app_nil_r. }
  rewrite (filter_cons_False (λ r, _ ∧ isHistoricalTelemtry r = true))
    by (intros [? ?]; congruence).
  destruct (isAnimal (removeEmptyProps r)) eqn:H3; simpl.
  { rewrite filter_cons_True by done.
    rewrite !filter_cons_False by (intros (? & ? & ? & ?); congruence).
    by rewrite !filter_nil, !app_nil_r. }
  rewrite (filter_cons_False (λ r, _ ∧ _ ∧ isAnimal r = true))
    by (intros (? & ? & ?); congruence).
  destruct (isCollar (removeEmptyProps r)) eqn:H4; simpl.
  { rewrite filter_cons_True by done. by rewrite !filter_nil, !app_nil_r. }
  rewrite filter_cons_False by (intros (? & ? & ? & ?); congruence).
  by rewrite !filter_nil, !app_nil_r.
Qed.

(** X16: [parseCSV] puts every cleaned row in the list of the first guard
    it passes, in the order animal-and-device, telemetry, animal, collar,
    keeps the order of the file within each list, and drops the rows that
    pass no guard. *)
Theorem parseCSV_sorts_by_first_guard (rs : list (gmap string Value)) :
  let crows := removeEmptyProps <$> rs in
  let ret := parseCSV isAnimalAndDevice isHistoricalTelemtry isAnimal isCollar rs in
  both ret = filter (λ r, isAnimalAndDevice r = true) crows
  ∧ points ret
    = filter (λ r, isAnimalAndDevice r = false
                   ∧ isHistoricalTelemtry r = true) crows
  ∧ animals ret
    = filter (λ r, isAnimalAndDevice r = false
                   ∧ isHistoricalTelemtry r = false
                   ∧ isAnimal r = true) crows
  ∧ collars ret
    = filter (λ r, isAnimalAndDevice r = false
                   ∧ isHistoricalTelemtry r = false
                   ∧ isAnimal r = false ∧ isCollar r = true) crows.
Proof. apply parseCSV_filters. Qed.

(** X17: when some row of a CSV file is a telemetry point, [importCsv]
    sends the result of the telemetry upsert of the points of the file and
    makes no bulk upsert and no link query: the metadata rows of the same
    file are not imported. *)
Theorem importCsv_telemetry_shadows_metadata (id : string)
    (rs : list (gmap string Value)) (log : list (nat * Settled))
    (r : gmap string Value) :
  r ∈ rs →
  isAnimalAndDevice (removeEmptyProps r) = false →
  isHistoricalTelemtry (removeEmptyProps r) = true →
  importCsv st isAnimalAndDevice isHistoricalTelemtry isAnimal isCollar
    upsertPointTelemetry id rs log
  = ([], Some (Send (upsertPointTelemetry id
                       (filter (λ r, isAnimalAndDevice r = false
                                     ∧ isHistoricalTelemtry r = true)
                               (removeEmptyProps <$> rs))))).
Proof.
  intros Hin H1 H2.
  destruct (parseCSV_filters rs) as (_ & Hp & _).
  cbn zeta in Hp. unfold importCsv, onFinishedParsingCsv. rewrite <- Hp.
  set (ret := parseCSV isAnimalAndDevice isHistoricalTelemtry isAnimal isCollar rs)
    in *.
  assert (Hne : points ret ≠ []).
  { rewrite Hp. intros Hnil.
    eapply (filter_nil_not_elem_of _ _ (removeEmptyProps r) Hnil); [done|].
    apply list_elem_of_fmap. eauto. }
  assert (Hlen : Nat.eqb (length (animals ret ++ collars ret
                                    ++ points ret ++ both ret)) 0 = false).
  { apply Nat.eqb_neq. rewrite !length_app.
    destruct (points ret); [done|]. simpl. lia. }
  rewrite Hlen. by destruct (points ret).
Qed.

(** X18: [importCsv] answers 404 exactly when no row of the file passes
    any of the four type guards, which includes the empty file. *)
Theorem importCsv_404_iff_no_row_matches (id : string)
    (rs : list (gmap string Value)) (log : list (nat * Settled)) :
  importCsv st isAnimalAndDevice isHistoricalTelemtry isAnimal isCollar
    upsertPointTelemetry id rs log
  = ([], Some (SendStatus 404 "import failed - rows did not match any known type"))
  ↔ ∀ r, r ∈ rs →
      isAnimalAndDevice (removeEmptyProps r) = false
      ∧ isHistoricalTelemtry (removeEmptyProps r) = false
      ∧ isAnimal (removeEmptyProps r) = false
      ∧ isCollar (removeEmptyProps r) = false.
Proof.
  destruct (parseCSV_filters rs) as (Hb & Hp & Ha & Hc).
  cbn zeta in *.
  unfold importCsv, onFinishedParsingCsv.
  set (ret := parseCSV isAnimalAndDevice isHistoricalTelemtry isAnimal isCollar rs)
    in *.
  destruct (Nat.eqb (length _) 0) eqn:Hlen.
  - split; [|done]. intros _ r Hin.
    apply Nat.eqb_eq, nil_length_inv in Hlen.
    apply app_eq_nil in Hlen as [Han Hlen].
    apply app_eq_nil in Hlen as [Hcn Hlen].
    apply app_eq_nil in Hlen as [Hpn Hbn].
    rewrite Hb in Hbn. rewrite Hp in Hpn. rewrite Ha in Han. rewrite Hc in Hcn.
    assert (Hcr : removeEmptyProps r ∈ removeEmptyProps <$> rs)
      by (apply list_elem_of_fmap; eauto).
    pose proof (λ P, filter_nil_not_elem_of _ _ (removeEmptyProps r) Hbn P Hcr) as N1.
    pose proof (λ P, filter_nil_not_elem_of _ _ (removeEmptyProps r) Hpn P Hcr) as N2.
    pose proof (λ P, filter_nil_not_elem_of _ _ (removeEmptyProps r) Han P Hcr) as N3.
    pose proof (λ P, filter_nil_not_elem_of _ _ (removeEmptyProps r) Hcn P Hcr) as N4.
    destruct (isAnimalAndDevice (removeEmptyProps r)); [by destruct N1|].
    destruct (isHistoricalTelemtry (removeEmptyProps r)); [by destruct N2|].
    destruct (isAnimal (removeEmptyProps r)); [by destruct N3|].
    destruct (isCollar (removeEmptyProps r)); [by destruct N4|]. done.
  - split.
    + destruct (negb _); [done|]. destruct (negb _).
      { destruct (handleBulkMetadata _ _ _ _) as [t [resp|]]; done. }
      destruct (negb _); [done|]. by destruct (negb _).
    + intros Hnone. exfalso. apply Nat.eqb_neq in Hlen. apply Hlen.
      rewrite Hb, Hp, Ha, Hc.
      pose proof (@filter_fmap_none _ _ removeEmptyProps rs) as Hempty.
      rewrite (Hempty (λ r, isAnimalAndDevice r = true)),
        (Hempty (λ r, isAnimalAndDevice r = false
                      ∧ isHistoricalTelemtry r = true)),
        (Hempty (λ r, isAnimalAndDevice r = false
                      ∧ isHistoricalTelemtry r = false ∧ isAnimal r = true)),
        (Hempty (λ r, isAnimalAndDevice r = false
                      ∧ isHistoricalTelemtry r = false
                      ∧ isAnimal r = false ∧ isCollar r = true));
        [done|..]; intros r Hr Hcontra;
        destruct (Hnone r Hr) as (? & ? & ? & ?);
        repeat match goal with H : _ ∧ _ |- _ => destruct H end; congruence.
Qed.

End Csv.

Section Template.
Context (st : Store).

Lemma templateLoop_lookup (codes : string → list string) (cells : list string)
    (h0 : nat) (v0 : N) (k : nat) (tv : TemplateValidation) :
  templateLoop st codes cells h0 v0 !! k = Some tv →
  tv_val_col tv = computeXLSXCol (v0 + N.of_nat k)
  ∧ h0 ≤ tv_header_idx tv < h0 + length cells
  ∧ ∃ text, cells !! (tv_header_idx tv - h0) = Some text
      ∧ mapXlsxHeader st text ∈ code_header st ++ extraCodeFields
      ∧ tv_codes tv = codes (mapXlsxHeader st text).
Proof.
  revert h0 v0 k. induction cells as [|text cells IH]; intros h0 v0 k; [done|].
  simpl. case_bool_decide as Hcode.
  - destruct k as [|k]; simpl.
    + intros [= <-]. simpl. rewrite N.add_0_r, Nat.sub_diag.
      split; [done|]. split; [lia|]. eauto.
    + intros Hk. destruct (IH _ _ _ Hk) as (Hcol & Hidx & text' & Htext & Hrest).
      split; [rewrite Hcol; f_equal; lia|]. split; [lia|].
      exists text'. split; [|done].
      by replace (tv_header_idx tv - h0) with (S (tv_header_idx tv - S h0)) by lia.
  - intros Hk. destruct (IH _ _ _ Hk) as (Hcol & Hidx & text' & Htext & Hrest).
    split; [done|]. split; [lia|].
    exists text'. split; [|done].
    by replace (tv_header_idx tv - h0) with (S (tv_header_idx tv - S h0)) by lia.
Qed.

Lemma templateLoop_length (codes : string → list string) (cells : list string)
    (h0 : nat) (v0 : N) :
  length (templateLoop st codes cells h0 v0) ≤ length cells.
Proof.
  revert h0 v0. induction cells as [|text cells IH]; intros h0 v0; simpl; [done|].
  case_bool_decide; simpl; [specialize (IH (S h0) (v0 + 1)%N)|specialize (IH (S h0) v0)]; lia.
Qed.

(** X29: in the template, the k-th code header found gets the validation
    column [computeXLSXCol k] and the codes of its own header; the header
    cells visited are 1 .. cellCount - 1, so the last header cell never
    gets a validation; and with at most 703 header cells the validation
    columns are pairwise distinct. *)
Theorem templateValidations_columns (codes : string → list string)
    (cells : list string) :
  let tvs := templateValidations st codes cells in
  (∀ k tv, tvs !! k = Some tv →
     tv_val_col tv = computeXLSXCol (N.of_nat k)
     ∧ 1 ≤ tv_header_idx tv < length cells
     ∧ ∃ text, cells !! (tv_header_idx tv - 1) = Some text
         ∧ mapXlsxHeader st text ∈ code_header st ++ extraCodeFields
         ∧ tv_codes tv = codes (mapXlsxHeader st text))
  ∧ (length cells ≤ 703 → NoDup (tv_val_col <$> tvs)).
Proof.
  intros tvs.
  assert (Hlook : ∀ k tv, tvs !! k = Some tv →
     tv_val_col tv = computeXLSXCol (N.of_nat k)
     ∧ 1 ≤ tv_header_idx tv < length cells
     ∧ ∃ text, cells !! (tv_header_idx tv - 1) = Some text
         ∧ mapXlsxHeader st text ∈ code_header st ++ extraCodeFields
         ∧ tv_codes tv = codes (mapXlsxHeader st text)).
  { intros k tv Hk. unfold tvs, templateValidations in Hk.
    apply templateLoop_lookup in Hk as (Hcol & Hidx & text & Htext & Hrest).
    rewrite length_take in Hidx. split; [done|]. split; [lia|].
    exists text. split; [|done]. by apply lookup_take_Some in Htext as [? ?]. }
  split; [done|]. intros Hsmall.
  pose proof (templateLoop_length codes (take (length cells - 1) cells) 1 0%N)
    as Hlen.
  rewrite length_take in Hlen. fold (templateValidations st codes cells) in Hlen.
  fold tvs in Hlen.
  apply NoDup_alt. intros i j col Hi Hj.
  rewrite list_lookup_fmap in Hi, Hj.
  destruct (tvs !! i) as [tvi|] eqn:Htvi; [|done].
  destruct (tvs !! j) as [tvj|] eqn:Htvj; [|done].
  simpl in Hi, Hj. injection Hi as Hi. injection Hj as Hj.
  destruct (Hlook _ _ Htvi) as [Hci _]. destruct (Hlook _ _ Htvj) as [Hcj _].
  apply lookup_lt_Some in Htvi, Htvj.
  assert (Hii : (N.of_nat i < 702)%N) by lia.
  assert (Hjj : (N.of_nat j < 702)%N) by lia.
  destruct (computeXLSXCol_columnIndex _ Hii) as [_ Hri].
  destruct (computeXLSXCol_columnIndex _ Hjj) as [_ Hrj].
  rewrite <- Hci, Hi, <- Hj, Hcj, Hrj in Hri. injection Hri. lia.
Qed.

End Template.

(** ** More on the bulk upsert *)

Section Upsert.
Context (st : Store).

Lemma elem_of_animalsWithDevices (rs : list Row)
    (c : ICrittersWithDevices) :
  c ∈ animalsWithDevices rs
  ↔ rs !! rowIndex c = Some (cwd_row c)
    ∧ truthy (cwd_row c !! "device_id") = true.
Proof.
  unfold animalsWithDevices. rewrite list_elem_of_filter, elem_of_lookup_imap.
  split.
  - intros [Hdev (i & r & -> & Hi)]. done.
  - intros [Hi Hdev]. split; [done|].
    exists (rowIndex c), (cwd_row c). split; [by destruct c|done].
Qed.

(** X19: the rows handed to the attachment phase are exactly the rows of
    the batch with a truthy device id, each with its index in the whole
    batch, which is the row number the attachment errors report. *)
Theorem animalsWithDevices_keeps_batch_index (rs : list Row)
    (c : ICrittersWithDevices) :
  c ∈ animalsWithDevices rs
  ↔ rs !! rowIndex c = Some (cwd_row c)
    ∧ truthy (cwd_row c !! "device_id") = true.
Proof. apply elem_of_animalsWithDevices. Qed.

Lemma animalsWithDevices_nil (rs : list Row) :
  Forall (λ r, truthy (r !! "device_id") = false) rs →
  animalsWithDevices rs = [].
Proof.
  intros Hall. destruct (animalsWithDevices rs) as [|c cs] eqn:Hcs; [done|].
  assert (Hc : c ∈ animalsWithDevices rs) by (rewrite Hcs; apply list_elem_of_here).
  apply elem_of_animalsWithDevices in Hc as [Hi Hdev].
  rewrite Forall_forall in Hall.
  rewrite (Hall (cwd_row c)) in Hdev; [done|].
  by eapply list_elem_of_lookup_2.
Qed.

(** X20: when both phases succeed and no row has a truthy device id, the
    bulk upsert returns the two phase summaries and no error, and makes no
    link query, whatever the completion log. *)
Theorem handleBulkMetadata_without_devices (username : string)
    (rs : list Row) (log : list (nat * Settled)) :
  br_errors (upsertBulk st username rs device) = [] →
  br_errors (upsertBulk st username rs animal) = [] →
  Forall (λ r, truthy (r !! "device_id") = false) rs →
  handleBulkMetadata st username rs log
  = ([EvUpsertBulk username rs device; EvUpsertBulk username rs animal],
     Some {| br_errors := [];
             br_results :=
               [ successRecord
                   (pretty (length (br_results (upsertBulk st username rs device)))
                      +:+ " devices were successfully added");
                 successRecord
                   (pretty (length (br_results (upsertBulk st username rs animal)))
                      +:+ " animals were successfully added") ] |}).
Proof.
  intros Hdev Han Hall. unfold handleBulkMetadata.
  rewrite (animalsWithDevices_nil rs Hall), Hdev, Han. done.
Qed.

Lemma startEvents_links username (tasks : list TaskStart) :
  Forall (λ ev, ∃ body, ev = EvLinkCollar username body)
         (concat (startEvents username <$> tasks))
  ∧ length (concat (startEvents username <$> tasks)) ≤ length tasks.
Proof.
  induction tasks as [|t tasks [IH1 IH2]].
  - split; [constructor|done].
  - rewrite fmap_cons. cbn [concat]. rewrite Forall_app, length_app.
    destruct t as [s pushed|body]; cbn [startEvents length].
    + split; [split; [constructor|done]|lia].
    + split; [|lia]. split; [|done]. constructor; eauto.
Qed.

(** X21: the round trips of [handleBulkMetadata] begin with the device
    upsert of the whole batch; what follows is nothing, or the animal
    upsert of the whole batch followed by link queries only, at most one
    per row. *)
Theorem handleBulkMetadata_phase_order (username : string) (rs : list Row)
    (log : list (nat * Settled)) :
  ∃ rest, (handleBulkMetadata st username rs log).1
          = EvUpsertBulk username rs device :: rest
    ∧ (rest = []
       ∨ ∃ links, rest = EvUpsertBulk username rs animal :: links
           ∧ Forall (λ ev, ∃ body, ev = EvLinkCollar username body) links
           ∧ length links ≤ length rs).
Proof.
  unfold handleBulkMetadata.
  destruct (negb (Nat.eqb (length (br_errors (upsertBulk st username rs device))) 0)).
  { eexists. split; [reflexivity|]. by left. }
  destruct (negb (Nat.eqb (length (br_errors (upsertBulk st username rs animal))) 0)).
  { eexists. split; [reflexivity|]. right. eexists. split; [reflexivity|].
    split; [constructor|simpl; lia]. }
  destruct (_ && _ && _).
  - unfold handleCollarCritterLink. simpl.
    eexists. split; [reflexivity|]. right. eexists. split; [reflexivity|].
    destruct (startEvents_links username
      (startTask st (br_results (upsertBulk st username rs animal))
         (br_results (upsertBulk st username rs device))
       <$> animalsWithDevices rs)) as [Hl Hlen].
    split; [done|]. rewrite length_fmap in Hlen.
    etrans; [exact Hlen|]. unfold animalsWithDevices.
    etrans; [apply length_filter|]. by rewrite length_imap.
  - eexists. split; [reflexivity|]. right. eexists. split; [reflexivity|].
    split; [constructor|simpl; lia].
Qed.

(** X22: the attachment phase returns exactly when every link query it
    sent has settled. *)
Theorem handleCollarCritterLink_waits_for_every_query (username : string)
    (critterResults collarResults : list Row)
    (cs : list ICrittersWithDevices) (bulkResp : IBulkResponse)
    (log : list (nat * Settled)) :
  is_Some (handleCollarCritterLink st username critterResults collarResults cs
             bulkResp log).2
  ↔ ∀ j c body, cs !! j = Some c →
      startTask st critterResults collarResults c = Pending body →
      is_Some (settleOf log j).
Proof.
  split.
  - unfold handleCollarCritterLink, allSettled. simpl.
    destruct (allSettledFrom log 0 _) as [values|] eqn:Hv; [|by intros [? ?]].
    intros _ j c body Hc Hstart.
    destruct (allSettledFrom_lookup _ _ _ _ Hv) as [Hlen Hlook].
    specialize (Hlook j (startTask st critterResults collarResults c)).
    rewrite list_lookup_fmap, Hc in Hlook. specialize (Hlook eq_refl).
    rewrite Hstart in Hlook. simpl in Hlook. rewrite <- Hlook.
    apply lookup_lt_is_Some. rewrite Hlen, length_fmap.
    by eapply lookup_lt_Some.
  - intros Hall.
    destruct (handleCollarCritterLink_returns st username critterResults
                collarResults cs bulkResp log) as (values & -> & _); [|done].
    intros j c Hc.
    destruct (startTask st critterResults collarResults c) as [s p|body] eqn:Hs;
      simpl; eauto.
Qed.

(** X23: the attachment phase only appends to the bulk response: the
    errors and the results it was given stay in front, and it adds one
    entry per row, in the errors or in the results, besides the
    no-matching-collar errors. *)
Theorem handleCollarCritterLink_keeps_entries (username : string)
    (critterResults collarResults : list Row)
    (cs : list ICrittersWithDevices) (bulkResp resp : IBulkResponse)
    (log : list (nat * Settled)) :
  (handleCollarCritterLink st username critterResults collarResults cs
     bulkResp log).2 = Some resp →
  br_errors bulkResp `prefix_of` br_errors resp
  ∧ br_results bulkResp `prefix_of` br_results resp
  ∧ length (br_errors resp) + length (br_results resp)
    = length (br_errors bulkResp) + length (br_results bulkResp)
      + length cs
      + length (concat (startPushed <$>
                          (startTask st critterResults collarResults <$> cs))).
Proof.
  unfold handleCollarCritterLink, allSettled. simpl.
  destruct (allSettledFrom log 0 _) as [values|] eqn:Hv; [|done].
  simpl. intros [= <-]. rewrite foldl_report. simpl.
  destruct (allSettledFrom_lookup _ _ _ _ Hv) as [Hlen _].
  rewrite length_fmap in Hlen.
  split; [rewrite <- app_assoc; by eexists|]. split; [by eexists|].
  rewrite !length_app.
  assert (Hcount : ∀ cvs : list (ICrittersWithDevices * Settled),
    length (omap (λ cv : ICrittersWithDevices * Settled,
                    match cv.2 with
                    | Rejected reason => Some (attachmentError st cv.1 reason)
                    | Fulfilled => None
                    end) cvs)
    + length (omap (λ cv : ICrittersWithDevices * Settled,
                      match cv.2 with
                      | Fulfilled => Some (attachmentSuccess st cv.1)
                      | Rejected _ => None
                      end) cvs)
    = length cvs).
  { induction cvs as [|[c [|reason]] cvs IH]; [done| |];
      cbn [omap list_omap snd fst length] in *; lia. }
  specialize (Hcount (zip cs values)).
  rewrite length_zip_with in Hcount. lia.
Qed.

(** X24: every link query sent joins an upserted animal whose [animal_id]
    is strictly equal to a row's and an upserted collar whose [device_id]
    prints as that row's; its attachment start is never null, and its
    data-life start and data-life end are both the attachment start. *)
Theorem link_queries_join_matching_records (username : string)
    (critterResults collarResults : list Row)
    (cs : list ICrittersWithDevices) (bulkResp : IBulkResponse)
    (log : list (nat * Settled)) (ev : Event) :
  ev ∈ (handleCollarCritterLink st username critterResults collarResults cs
          bulkResp log).1 →
  ∃ c cr dr,
    c ∈ cs ∧ cr ∈ critterResults ∧ dr ∈ collarResults
    ∧ strict_eq (cr !! "animal_id") (cwd_row c !! "animal_id") = true
    ∧ sameDevice st (cwd_row c) dr = true
    ∧ ev = EvLinkCollar username (linkBody st cr dr (cwd_row c))
    ∧ nullish (body_attachment_start (linkBody st cr dr (cwd_row c))) = false
    ∧ data_life_start (linkBody st cr dr (cwd_row c))
      = body_attachment_start (linkBody st cr dr (cwd_row c))
    ∧ data_life_end (linkBody st cr dr (cwd_row c))
      = body_attachment_start (linkBody st cr dr (cwd_row c)).
Proof.
  unfold handleCollarCritterLink. simpl. intros Hev.
  apply list_elem_of_In, in_concat in Hev as (evs & Hevs & Hin).
  apply list_elem_of_In, list_elem_of_fmap in Hevs as (t & -> & Ht).
  apply list_elem_of_fmap in Ht as (c & -> & Hc).
  unfold startTask, findCritter in Hin.
  destruct (List.find _ critterResults) as [cr|] eqn:Hcr; [|done].
  apply find_some in Hcr as [Hcr Hmatch]. apply list_elem_of_In in Hcr.
  assert (Hfc : ∀ o, findCollar st collarResults (cwd_row c) = Returned (Some o) →
            o ∈ collarResults ∧ sameDevice st (cwd_row c) o = true).
  { clear. induction collarResults as [|dr rest IH]; intros o; simpl; [done|].
    destruct (nullish (dr !! "device_id")); [done|].
    destruct (nullish (cwd_row c !! "device_id")); [done|].
    destruct (sameDevice st (cwd_row c) dr) eqn:Hsame.
    - intros [= <-]. split; [apply list_elem_of_here|done].
    - intros Hrest. destruct (IH _ Hrest). split; [|done].
      by apply list_elem_of_further. }
  destruct (findCollar st collarResults (cwd_row c)) as [[dr|]|e]; try done.
  destruct (Hfc dr eq_refl) as [Hdr Hsame].
  simpl in Hin. destruct Hin as [<-|[]].
  exists c, cr, dr. repeat split; try done.
  unfold linkBody. simpl. unfold coalesce.
  by destruct (nullish (cr !! "capture_date")) eqn:Hn.
Qed.

(** X25: when the device id of the first upserted collar record is
    [undefined] or [null], a row whose animal was found sends no link
    query: its task is rejected by the [TypeError] of the failed
    [toString], whose message names [undefined] or [null] accordingly, and
    the row is reported in the errors with that reason. *)
Theorem collar_without_device_id_rejects_the_row (username : string)
    (critterResults rest : list Row) (dr savedCritter : Row)
    (cs : list ICrittersWithDevices) (bulkResp : IBulkResponse)
    (log : list (nat * Settled)) (j : nat) (c : ICrittersWithDevices) :
  (∀ j c, cs !! j = Some c →
     is_Some (taskSettled log j (startTask st critterResults (dr :: rest) c))) →
  cs !! j = Some c →
  findCritter critterResults (cwd_row c) = Some savedCritter →
  nullish (dr !! "device_id") = true →
  ∃ resp,
    (handleCollarCritterLink st username critterResults (dr :: rest) cs
       bulkResp log).2 = Some resp
    ∧ startEvents username (startTask st critterResults (dr :: rest) c) = []
    ∧ attachmentError st c
        ("TypeError: Cannot read properties of "
           +:+ (if bool_decide (dr !! "device_id" = Some CNull)
                then "null" else "undefined")
           +:+ " (reading 'toString')") ∈ br_errors resp.
Proof.
  intros Hall Hc Hsaved Hnull.
  destruct (handleCollarCritterLink_returns st username critterResults
              (dr :: rest) cs bulkResp log Hall) as (values & Hresp & Hzip).
  eexists. split; [exact Hresp|]. simpl.
  set (reason := String.append "TypeError: Cannot read properties of " _).
  assert (Hstart : startTask st critterResults (dr :: rest) c
                   = Immediate (Rejected reason) []).
  { unfold startTask. rewrite Hsaved. simpl. rewrite Hnull. unfold reason.
    by destruct (dr !! "device_id") as [[| | | |]|]. }
  split; [by rewrite Hstart|].
  apply elem_of_app. right. apply list_elem_of_omap.
  exists (c, Rejected reason). split; [|done].
  apply (Hzip j). { done. } by rewrite Hstart.
Qed.


End Upsert.

(** ** The properties above on the demo files *)

Lemma obtainColumnTypes_last_wins_witness :
  obtainColumnTypes twoTablesStore !! "valid_from" = Some "string"
  ∧ "string" ∈ ["number"; "date"; "boolean"; "string"].
Proof.
  destruct (obtainColumnTypes_last_wins twoTablesStore "valid_from")
    as [Hlast Hkind].
  split; [rewrite Hlast; reflexivity|]. apply Hkind. reflexivity.
Defined.

Lemma checkAnimalDeviceErrorsAndWarns_error_keys_witness :
  ∃ t ew,
    checkAnimalDeviceErrorsAndWarns demoStore
      {| row := rowEarlierDeployment; errors := ∅; warnings := [];
         success := false |} "jdoe" = (t, Returned ew)
    ∧ ew_errors ew = ∅.
Proof.
  destruct (checkAnimalDeviceErrorsAndWarns_error_keys demoStore
              {| row := rowEarlierDeployment; errors := ∅; warnings := [];
                 success := false |} "jdoe")
    as (t & ew & Hc & _ & _ & Hprev).
  exists t, ew. split; [exact Hc|]. apply Hprev.
  vm_compute in Hc. injection Hc as _ <-. apply list_elem_of_here.
Defined.

Lemma new_animal_warning_iff_is_new_witness :
  ∃ t ew,
    checkAnimalDeviceErrorsAndWarns demoStore
      {| row := rowScenarioB; errors := ∅; warnings := [];
         success := false |} "jdoe" = (t, Returned ew)
    ∧ last (ew_warnings ew) = Some newAnimalWarning
    ∧ ew_errors ew = {[ "device_id" := deviceAssignedError ]}.
Proof.
  destruct (new_animal_warning_iff_is_new demoStore
              {| row := rowScenarioB; errors := ∅; warnings := [];
                 success := false |} "jdoe" eq_refl)
    as (t & ew & Hc & _ & Hlast & Herr).
  exists t, ew. split; [exact Hc|]. split; [apply Hlast; reflexivity|exact Herr].
Defined.

Lemma rowWithHeader_lookup_witness :
  rowWithHeader ["a"; "b"; "c"] [Some (CStr "x")] !! "a" = Some (Some (CStr "x"))
  ∧ rowWithHeader ["a"; "b"; "c"] [Some (CStr "x")] !! "c" = Some None.
Proof.
  split.
  - apply (rowWithHeader_lookup ["a"; "b"; "c"] [Some (CStr "x")] 0 "a");
      [|reflexivity].
    apply (bool_decide_unpack _). reflexivity.
  - apply (rowWithHeader_lookup ["a"; "b"; "c"] [Some (CStr "x")] 2 "c");
      [|reflexivity|simpl; lia].
    apply (bool_decide_unpack _). reflexivity.
Defined.

Lemma convertDates_rewrites_date_columns_witness :
  ∃ r', convertDates demoStore (obtainColumnTypes demoStore) rowWithDate
        = Returned r'
    ∧ dom r' = dom rowWithDate
    ∧ r' !! "capture_date" = Some (CStr "2020-03-01")
    ∧ r' !! "species" = Some (CStr "Moose").
Proof.
  eexists. split; [vm_compute; reflexivity|].
  split; [|split; reflexivity].
  apply (convertDates_rewrites_date_columns demoStore
           (obtainColumnTypes demoStore) rowWithDate).
  vm_compute. reflexivity.
Defined.

Lemma parseSheet_keeps_row_order_witness :
  ∃ t sr,
    parseSheet demoStore "jdoe" demoWorkbook
      (code_header demoStore ++ extraCodeFields) metadataRequirement
    = (t, Returned sr)
    ∧ length (rows sr) = 3.
Proof.
  destruct (parseSheet demoStore "jdoe" demoWorkbook
              (code_header demoStore ++ extraCodeFields) metadataRequirement)
    as [t [sr|e]] eqn:Hs; [|vm_compute in Hs; discriminate].
  exists t, sr. split; [reflexivity|].
  destruct (parseSheet_keeps_row_order demoStore "jdoe" demoWorkbook _ _ t sr Hs)
    as (sheet & Hsheet & _ & _ & Hlen & _).
  rewrite Hlen. vm_compute in Hsheet. injection Hsheet as <-. reflexivity.
Defined.

Lemma telemetry_rows_get_no_cross_row_checks_witness :
  (parseSheet demoStore "jdoe" telemetryWorkbook
     (code_header demoStore ++ extraCodeFields) telemetryRequirement).1 = [].
Proof.
  apply (telemetry_rows_get_no_cross_row_checks demoStore "jdoe"
           telemetryWorkbook (code_header demoStore ++ extraCodeFields)).
Defined.

Lemma importXlsx_rejects_bad_device_sheet_witness :
  importXlsx demoStore "jdoe" swappedHeadersWorkbook
  = ([], SendStatus 500 "Failed parsing the XLSX file.").
Proof.
  apply (importXlsx_rejects_bad_device_sheet demoStore "jdoe"
           swappedHeadersWorkbook).
  right. eexists. split; [reflexivity|].
  intros [k Hk]. vm_compute in Hk. discriminate.
Defined.

Lemma importXlsx_sends_parsed_sheets_witness :
  ∃ t sr, importXlsx demoStore "jdoe" metadataOnlyWorkbook
          = (t, SendSheets [sr]).
Proof.
  destruct (parseSheet demoStore "jdoe" metadataOnlyWorkbook
              (code_header demoStore ++ extraCodeFields) metadataRequirement)
    as [t1 [sr1|e]] eqn:Hs; [|vm_compute in Hs; discriminate].
  pose proof (importXlsx_sends_parsed_sheets demoStore "jdoe"
                metadataOnlyWorkbook t1 sr1 Hs) as Hsend.
  exists (t1 ++ []), sr1. exact Hsend.
Defined.

Lemma importCsv_telemetry_shadows_metadata_witness :
  (importCsv demoStore demoIsAnimalAndDevice demoIsHistoricalTelemtry
     demoIsAnimal demoIsCollar demoUpsertPointTelemetry "jdoe" csvFile []).1
  = [].
Proof.
  rewrite (importCsv_telemetry_shadows_metadata demoStore demoIsAnimalAndDevice
             demoIsHistoricalTelemtry demoIsAnimal demoIsCollar
             demoUpsertPointTelemetry "jdoe" csvFile [] csvPoint).
  - reflexivity.
  - apply list_elem_of_further, list_elem_of_here.
  - reflexivity.
  - reflexivity.
Defined.

Lemma handleBulkMetadata_without_devices_witness :
  (handleBulkMetadata demoStore "jdoe" rowsWithoutDevice []).1
  = [ EvUpsertBulk "jdoe" rowsWithoutDevice device;
      EvUpsertBulk "jdoe" rowsWithoutDevice animal ].
Proof.
  rewrite (handleBulkMetadata_without_devices demoStore "jdoe"
             rowsWithoutDevice []).
  - reflexivity.
  - reflexivity.
  - reflexivity.
  - repeat constructor.
Defined.

Lemma handleCollarCritterLink_keeps_entries_witness :
  ∃ resp,
    (handleCollarCritterLink demoStore "jdoe" [twinAnimal1] [twinCollar2]
       orphanTasks emptyResponse []).2 = Some resp
    ∧ length (br_errors resp) + length (br_results resp) = 3.
Proof.
  destruct (handleCollarCritterLink demoStore "jdoe" [twinAnimal1] [twinCollar2]
              orphanTasks emptyResponse []).2 as [resp|] eqn:Hr;
    [|vm_compute in Hr; discriminate].
  exists resp. split; [reflexivity|].
  destruct (handleCollarCritterLink_keeps_entries demoStore "jdoe"
              [twinAnimal1] [twinCollar2] orphanTasks emptyResponse resp [] Hr)
    as (_ & _ & Hcount).
  rewrite Hcount. reflexivity.
Defined.

Lemma link_queries_join_matching_records_witness :
  ∃ c cr dr,
    c ∈ [ {| rowIndex := 1; cwd_row := rowB |} ]
    ∧ cr ∈ upsertedAnimals ∧ dr ∈ upsertedCollars
    ∧ strict_eq (cr !! "animal_id") (cwd_row c !! "animal_id") = true
    ∧ sameDevice demoStore (cwd_row c) dr = true.
Proof.
  destruct (link_queries_join_matching_records demoStore "jdoe"
              upsertedAnimals upsertedCollars
              [ {| rowIndex := 1; cwd_row := rowB |} ] emptyResponse []
              (EvLinkCollar "jdoe"
                 (linkBody demoStore
                    (default ∅ (upsertedAnimals !! 1))
                    (default ∅ (upsertedCollars !! 1)) rowB)))
    as (c & cr & dr & Hc & Hcr & Hdr & Heq & Hsame & _).
  { vm_compute. apply list_elem_of_here. }
  exists c, cr, dr. repeat split; assumption.
Defined.

Lemma collar_without_device_id_rejects_the_row_witness :
  (∃ resp,
     (handleCollarCritterLink demoStore "jdoe" [twinAnimal1]
        [collarWithoutDevice; twinCollar1]
        [ {| rowIndex := 0; cwd_row := twin1 |} ] emptyResponse []).2
     = Some resp
     ∧ {| be_row := "17-1001,Moose,A1,101"; be_rownum := 0;
          be_error := "Animal ID A1 TypeError: Cannot read properties of undefined (reading 'toString')" |}
         ∈ br_errors resp)
  ∧ (∃ resp,
       (handleCollarCritterLink demoStore "jdoe" [twinAnimal1]
          [collarWithNullDevice; twinCollar1]
          [ {| rowIndex := 0; cwd_row := twin1 |} ] emptyResponse []).2
       = Some resp
       ∧ {| be_row := "17-1001,Moose,A1,101"; be_rownum := 0;
            be_error := "Animal ID A1 TypeError: Cannot read properties of null (reading 'toString')" |}
           ∈ br_errors resp).
Proof.
  split.
  - destruct (collar_without_device_id_rejects_the_row demoStore "jdoe"
                [twinAnimal1] [twinCollar1] collarWithoutDevice twinAnimal1
                [ {| rowIndex := 0; cwd_row := twin1 |} ] emptyResponse [] 0
                {| rowIndex := 0; cwd_row := twin1 |})
      as (resp & Hresp & _ & Hin).
    + intros [|j] c [= <-]. vm_compute. eauto.
    + reflexivity.
    + reflexivity.
    + reflexivity.
    + exists resp. split; [exact Hresp|exact Hin].
  - destruct (collar_without_device_id_rejects_the_row demoStore "jdoe"
                [twinAnimal1] [twinCollar1] collarWithNullDevice twinAnimal1
                [ {| rowIndex := 0; cwd_row := twin1 |} ] emptyResponse [] 0
                {| rowIndex := 0; cwd_row := twin1 |})
      as (resp & Hresp & _ & Hin).
    + intros [|j] c [= <-]. vm_compute. eauto.
    + reflexivity.
    + reflexivity.
    + reflexivity.
    + exists resp. split; [exact Hresp|exact Hin].
Defined.


Lemma computeXLSXCol_names_column_witness :
  computeXLSXCol 27 = [65; 66]%N ∧ columnIndex (computeXLSXCol 701) = Some 701%N.
Proof.
  split; [reflexivity|].
  apply (computeXLSXCol_names_column 701). reflexivity.
Defined.


Lemma templateValidations_columns_witness :
  NoDup (tv_val_col <$> templateValidations demoStore (get_code demoStore)
                          templateCells)
  ∧ (tv_header_idx <$> templateValidations demoStore (get_code demoStore)
                          templateCells) = [1; 3].
Proof.
  split; [|reflexivity].
  apply (templateValidations_columns demoStore (get_code demoStore)
           templateCells).
  simpl. lia.
Defined.
